(** * nibl: development loop and build pipeline

    A shallow embedding of the parts of [nibl] that drive its development
    server and its build pipeline:

    - [internal/server/server.go]: [liveReloadWrapper], the intercepting
      response writer and the [watchForChanges] loop;
    - [internal/server/hub.go]: the reload [Hub];
    - [internal/builder/render.go] and [internal/builder/builder.go]:
      [processContent], [isExceptionPage] and [BuildSite].

    Go's [[]byte] is a [list byte], Go's [string] is a [string], Go maps are
    [gmap]s.  Library code that the repository imports (YAML, Markdown, the
    sanitizer, templates, UTF-8 validation, MIME key canonicalisation) is taken
    as a section variable; the functions of [bytes], [strings] and
    [path/filepath] that the code calls are written out.

    The definitions come first, the properties follow in the second half. *)

From Stdlib Require Import ZArith Lia.
From Stdlib Require Import Strings.String Strings.Ascii Strings.Byte.
From stdpp Require Import base option list gmap strings pretty.

Local Open Scope Z_scope.
Local Open Scope list_scope.

#[global] Instance byte_eq_decision : EqDecision byte := Byte.byte_eq_dec.

(** [[]byte(s)] for a string [s]. *)
Definition bytes_of (s : string) : list byte := list_byte_of_string s.

(** [string(b)] for a byte slice [b]. *)
Definition string_of (b : list byte) : string := string_of_list_byte b.

(** ** Package [bytes] *)

Module GoBytes.
Section Bytes.
Context {A : Type} `{EqDecision A}.

(** [bytes.HasPrefix(s, prefix)]. *)
Fixpoint HasPrefix (s prefix : list A) {struct prefix} : bool :=
  match prefix, s with
  | [], _ => true
  | _ :: _, [] => false
  | p :: prefix', c :: s' => if decide (p = c) then HasPrefix s' prefix' else false
  end.

(** [bytes.Index(s, sep)]: the index of the first instance of [sep] in [s],
    [None] for Go's [-1]. *)
Fixpoint Index (s sep : list A) : option nat :=
  if HasPrefix s sep then Some 0%nat
  else match s with
       | [] => None
       | _ :: s' => S <$> Index s' sep
       end.

(** [bytes.Replace(s, old, new, n)] for a non-empty [old] and [n >= 0]: the
    first [n] non-overlapping instances of [old] are replaced by [new]. *)
Fixpoint Replace (s old new : list A) (n : nat) : list A :=
  match n with
  | O => s
  | S n' =>
      match Index s old with
      | None => s
      | Some i => take i s ++ new ++ Replace (drop (i + length old) s) old new n'
      end
  end.

(** The loop of [genSplit]: at most [k] cuts, the rest of [s] is the last
    piece. *)
Fixpoint genSplit (s sep : list A) (k : nat) : list (list A) :=
  match k with
  | O => [s]
  | S k' =>
      match Index s sep with
      | None => [s]
      | Some m => take m s :: genSplit (drop (m + length sep) s) sep k'
      end
  end.

(** [bytes.SplitN(s, sep, n)] for a non-empty [sep] and [n >= 0]: [n] is
    capped at [len(s) + 1], and [n - 1] cuts are tried. *)
Definition SplitN (s sep : list A) (n : nat) : list (list A) :=
  match n with
  | O => []
  | S _ => genSplit s sep (Nat.min n (length s + 1) - 1)
  end.

(** [occurs_at s sep i]: an instance of [sep] starts at index [i] of [s]. *)
Definition occurs_at (s sep : list A) (i : nat) : Prop :=
  exists pre post, s = pre ++ sep ++ post /\ length pre = i.

(** The number of (possibly overlapping) instances of [sep] in [s]. *)
Fixpoint occurrences (s sep : list A) : nat :=
  ((if HasPrefix s sep then 1 else 0) +
   match s with
   | [] => 0
   | _ :: s' => occurrences s' sep
   end)%nat.

End Bytes.
End GoBytes.

(** ** Packages [strings] and [path/filepath] *)

Module GoStrings.

(** The slice [s[i:]] of a string. *)
Fixpoint slice_from (i : nat) (s : string) : string :=
  match i, s with
  | O, _ => s
  | S i', String _ s' => slice_from i' s'
  | S _, EmptyString => EmptyString
  end.

(** The slice [s[:i]] of a string. *)
Fixpoint slice_to (i : nat) (s : string) : string :=
  match i, s with
  | O, _ => EmptyString
  | S i', String c s' => String c (slice_to i' s')
  | S _, EmptyString => EmptyString
  end.

(** [strings.HasSuffix]:
    [len(s) >= len(suffix) && s[len(s)-len(suffix):] == suffix]. *)
Definition HasSuffix (s suffix : string) : bool :=
  (String.length suffix <=? String.length s)%nat
  && String.eqb (slice_from (String.length s - String.length suffix) s) suffix.

(** [strings.TrimSuffix]. *)
Definition TrimSuffix (s suffix : string) : string :=
  if HasSuffix s suffix
  then slice_to (String.length s - String.length suffix) s
  else s.

(** [os.PathSeparator] on the systems the tool is built for. *)
Definition PathSeparator : ascii := "/"%char.

(** The scan of [filepath.Ext].  The source walks back from the end of the
    path to the last separator and returns the suffix at the first dot it
    meets; [ext_scan] walks forward and keeps the suffix at the last dot seen
    since the last separator, which is the same suffix. *)
Fixpoint ext_scan (s : string) (found : option string) : string :=
  match s with
  | EmptyString => default EmptyString found
  | String c s' =>
      if Ascii.eqb c PathSeparator then ext_scan s' None
      else if Ascii.eqb c "."%char then ext_scan s' (Some s)
      else ext_scan s' found
  end.

(** [filepath.Ext(path)]. *)
Definition Ext (path : string) : string := ext_scan path None.

(** [strings.Count(s, sep)] for a one-character [sep]. *)
Fixpoint CountChar (s : string) (c : ascii) : nat :=
  match s with
  | EmptyString => O
  | String d s' => ((if Ascii.eqb d c then 1 else 0) + CountChar s' c)%nat
  end.

(** [filepath.Base(path)] for a clean path that names a file: its last
    element, which is what is left when the elements before it are dropped. *)
Fixpoint Base (path : string) : string :=
  match path with
  | EmptyString => EmptyString
  | String _ s' =>
      match CountChar path PathSeparator with
      | O => path
      | S _ => Base s'
      end
  end.

(** [strings.HasPrefix]. *)
Fixpoint HasPrefix (s prefix : string) {struct prefix} : bool :=
  match prefix, s with
  | EmptyString, _ => true
  | String _ _, EmptyString => false
  | String p prefix', String c s' => Ascii.eqb p c && HasPrefix s' prefix'
  end.

(** [filepath.Join(dir, name)] for clean, non-empty elements. *)
Definition Join (dir name : string) : string :=
  dir +:+ String PathSeparator name.

(** [filepath.Rel(base, target)] for clean paths, the target at or below
    the base, as in a walk from the base; [None] stands for the error. *)
Definition Rel (base target : string) : option string :=
  if String.eqb base target then Some "."%string
  else if HasPrefix target (base +:+ String PathSeparator EmptyString)
       then Some (slice_from (String.length base + 1) target)
       else None.

(** [filepath.Dir(path)] for a clean relative path: all but the last
    element, [.] when there is only one. *)
Definition Dir (path : string) : string :=
  match CountChar path PathSeparator with
  | O => "."%string
  | S _ => slice_to (String.length path - String.length (Base path) - 1) path
  end.

(** [strings.Repeat(s, count)]. *)
Fixpoint Repeat (s : string) (count : nat) : string :=
  match count with
  | O => EmptyString
  | S n => s +:+ Repeat s n
  end.

End GoStrings.

(** ** Package [net/http]: headers, response writers, handlers *)

Module Http.

(** [http.Header] is [map[string][]string]. *)
Abbreviation Header := (gmap string (list string)).

(** [http.StatusOK]. *)
Definition StatusOK : Z := 200.

Section HeaderOps.
(** [textproto.CanonicalMIMEHeaderKey], which [Set], [Add] and [Values] apply
    to their key. *)
Variable CanonicalMIMEHeaderKey : string -> string.

(** [h.Set(key, value)]. *)
Definition Header_Set (key value : string) (h : Header) : Header :=
  <[CanonicalMIMEHeaderKey key := [value]]> h.

(** [h.Add(key, value)]. *)
Definition Header_Add (key value : string) (h : Header) : Header :=
  <[CanonicalMIMEHeaderKey key :=
      default [] (h !! CanonicalMIMEHeaderKey key) ++ [value]]> h.

(** [h.Values(key)]. *)
Definition Header_Values (key : string) (h : Header) : list string :=
  default [] (h !! CanonicalMIMEHeaderKey key).
End HeaderOps.

(** The interface [http.ResponseWriter].  [Header()] returns the live map,
    which the caller then mutates: [updHeader f] is such a mutation.  The
    results of [Write] are not modelled: every write is taken to succeed. *)
Class ResponseWriter (W : Type) := {
  getHeader : W -> Header;
  updHeader : (Header -> Header) -> W -> W;
  Write : list byte -> W -> W;
  WriteHeader : Z -> W -> W
}.

(** The server's own writer, as the [ResponseWriter] contract describes it:
    the first [WriteHeader] fixes the status and takes a snapshot of the
    header map, later ones are ignored; a [Write] before any [WriteHeader]
    implies [WriteHeader(StatusOK)]; written bytes are appended to the body
    that goes to the client.  Every code is taken as a final status: the
    informational codes, which the server sends ahead of the response, and
    the codes it refuses are left out. *)
Record response := mkResponse {
  handlerHeader : Header;
  wroteHeader : bool;
  status : Z;
  sentHeader : Header;
  sentBody : list byte
}.

(** A writer nothing was done with yet. *)
Definition newResponse : response := mkResponse ∅ false 0 ∅ [].

Definition response_WriteHeader (code : Z) (w : response) : response :=
  if wroteHeader w then w
  else mkResponse (handlerHeader w) true code (handlerHeader w) (sentBody w).

Definition response_Write (b : list byte) (w : response) : response :=
  let w := if wroteHeader w then w else response_WriteHeader StatusOK w in
  mkResponse (handlerHeader w) (wroteHeader w) (status w) (sentHeader w)
             (sentBody w ++ b).

Definition response_updHeader (f : Header -> Header) (w : response) : response :=
  mkResponse (f (handlerHeader w)) (wroteHeader w) (status w) (sentHeader w)
             (sentBody w).

#[global] Instance response_writer : ResponseWriter response := {|
  getHeader := handlerHeader;
  updHeader := response_updHeader;
  Write := response_Write;
  WriteHeader := response_WriteHeader
|}.

(** A request, as far as the wrapper looks at it: [r.URL.Path]. *)
Record Request := mkRequest { URL_Path : string }.

(** What a handler does with the writer it is given: a tree of calls on the
    [ResponseWriter] interface.  [ReadHeader] passes the current header map
    to the rest of the handler, [MutHeader] changes the map in place. *)
Inductive Calls : Type :=
| Return
| ReadHeader (k : Header -> Calls)
| MutHeader (f : Header -> Header) (k : Calls)
| CallWriteHeader (code : Z) (k : Calls)
| CallWrite (b : list byte) (k : Calls).

(** [http.Handler]. *)
Definition Handler := Request -> Calls.

Section Run.
Context {W : Type} `{ResponseWriter W}.

(** The calls of a handler, made on the writer [w]. *)
Fixpoint run (c : Calls) (w : W) : W :=
  match c with
  | Return => w
  | ReadHeader k => run (k (getHeader w)) w
  | MutHeader f k => run k (updHeader f w)
  | CallWriteHeader code k => run k (WriteHeader code w)
  | CallWrite b k => run k (Write b w)
  end.

(** [next.ServeHTTP(w, r)]. *)
Definition ServeHTTP (next : Handler) (w : W) (r : Request) : W :=
  run (next r) w.

(** The bytes the handler passes to [Write] in that run, in order: the body
    it produces. *)
Fixpoint produced (c : Calls) (w : W) : list byte :=
  match c with
  | Return => []
  | ReadHeader k => produced (k (getHeader w)) w
  | MutHeader f k => produced k (updHeader f w)
  | CallWriteHeader code k => produced k (WriteHeader code w)
  | CallWrite b k => b ++ produced k (Write b w)
  end.

(** The handler makes no [WriteHeader] call in that run. *)
Fixpoint no_WriteHeader (c : Calls) (w : W) : bool :=
  match c with
  | Return => true
  | ReadHeader k => no_WriteHeader (k (getHeader w)) w
  | MutHeader f k => no_WriteHeader k (updHeader f w)
  | CallWriteHeader _ _ => false
  | CallWrite b k => no_WriteHeader k (Write b w)
  end.
End Run.

End Http.

(** ** Package [config] *)

Module Config.

(** [SiteConfig] of [internal/config/config.go]. *)
Record SiteConfig := mkSiteConfig {
  Title : string;
  Author : string;
  BaseURL : string;
  Description : string;
  Template : string
}.

End Config.

(** ** Package [util] *)

Module Util.
Import GoStrings.

(** [ComputeBaseHref(relPath)]. *)
Definition ComputeBaseHref (relPath : string) : string :=
  let dir := Dir relPath in
  if String.eqb dir "." then EmptyString
  else
    let depth := (CountChar dir PathSeparator + 1)%nat in
    Repeat "../" depth.

End Util.

(** ** Package [builder] *)

Module Builder.
Import GoBytes GoStrings.

(** [BuildOptions] of [internal/builder/builder.go]. *)
Record BuildOptions := mkBuildOptions {
  CleanDestination : bool;
  Unsafe : bool;
  Debug : bool
}.

(** [PageMeta] of [internal/builder/models.go]; the values of [Params] are
    kept as text. *)
Record PageMeta := mkPageMeta {
  Title : string;
  Author : string;
  Draft : bool;
  Description : string;
  ShowEditML : bool;
  StoryTitle : string;
  StoryAuthor : string;
  Params : gmap string string
}.

(** The zero value [PageMeta{}]. *)
Definition emptyMeta : PageMeta :=
  mkPageMeta EmptyString EmptyString false EmptyString false EmptyString
             EmptyString ∅.

(** [PageData] of [internal/builder/models.go]. *)
Record PageData := mkPageData {
  pd_Content : string;
  pd_Title : string;
  pd_BaseHref : string;
  pd_Author : string;
  pd_Description : string;
  pd_Site : Config.SiteConfig;
  pd_ShowEditML : bool;
  pd_StoryTitle : string;
  pd_Params : gmap string string
}.

(** A compiled template set: [tmpl.ExecuteTemplate(outFile, "main", data)]
    gives the bytes it has written and its error. *)
Definition Template := PageData -> list byte * option string.

(** The front-matter delimiter of [processContent]. *)
Definition delimiter : list byte := bytes_of "---".

(** Step 1 of [processContent]: the bytes that go to [yaml.Unmarshal], if
    any, and the markdown body. *)
Definition frontMatterAndBody (rawContent : list byte) : option (list byte) * string :=
  let parts := SplitN rawContent delimiter 3 in
  if (3 <=? length parts)%nat
  then (Some (parts !!! 1%nat), string_of (parts !!! 2%nat))
  else (None, string_of rawContent).

(** [isExceptionPage(slug)]. *)
Definition isExceptionPage (slug : string) : bool :=
  String.eqb slug "index" || String.eqb slug "about" || String.eqb slug "menu".

(** One call of the function that [filepath.Walk] is given: the path, whether
    [info.IsDir()], the error of the walk, and what [os.ReadFile] gives for
    the path, an error or the bytes. *)
Record Visited := mkVisited {
  v_path : string;
  v_isDir : bool;
  v_err : option string;
  v_file : string + list byte
}.

(** The output tree and the counter [pagesGenerated]. *)
Record Output := mkOutput {
  files : gmap string (list byte);
  pagesGenerated : nat
}.

(** What the walk function has in hand when it reaches the draft check: it
    has returned [nil] early, failed, or has a page. *)
Inductive Loaded :=
| NotContent
| Failed (err : string)
| Document (meta : PageMeta) (htmlOut : string) (relPath ext : string).

Section Pipeline.
(** [yaml.Unmarshal(data, &meta)]: an error, or the metadata it has filled. *)
Variable yaml_Unmarshal : list byte -> PageMeta -> string + PageMeta.
(** [markdownRenderer.Convert]: an error, or the HTML. *)
Variable markdown_Convert : list byte -> string + list byte.
(** [htmlSanitizer.SanitizeBytes]. *)
Variable SanitizeBytes : list byte -> list byte.
(** [utf8.Valid]. *)
Variable utf8_Valid : list byte -> bool.

(** Steps 2 and 3 of [processContent]: the body is rendered and, unless
    [opts.Unsafe], sanitized. *)
Definition renderBody (meta : PageMeta) (body : string) (opts : BuildOptions)
    : PageMeta * string * option string :=
  match markdown_Convert (bytes_of body) with
  | inl err =>
      (meta, EmptyString,
       Some ("failed to render markdown with goldmark: " +:+ err))
  | inr html =>
      if negb (Unsafe opts)
      then (meta, string_of (SanitizeBytes html), None)
      else (meta, string_of html, None)
  end.

(** [processContent(rawContent, opts)]. *)
Definition processContent (rawContent : list byte) (opts : BuildOptions)
    : PageMeta * string * option string :=
  let meta := emptyMeta in
  match frontMatterAndBody rawContent with
  | (Some front, body) =>
      match yaml_Unmarshal front meta with
      | inl err =>
          (emptyMeta, EmptyString,
           Some ("failed to parse front matter: " +:+ err))
      | inr meta => renderBody meta body opts
      end
  | (None, body) => renderBody meta body opts
  end.

Variable outputDir contentDir staticDir : string.
Variable site : Config.SiteConfig.
Variable tmpl : Template.
Variable opts : BuildOptions.

(** The walk function of [BuildSite] up to the draft check. *)
Definition load (v : Visited) : Loaded :=
  match v_err v with
  | Some err => Failed err
  | None =>
      if v_isDir v then NotContent
      else
        let ext := Ext (Base (v_path v)) in
        if negb (String.eqb ext ".html") && negb (String.eqb ext ".md")
        then NotContent
        else
          match v_file v with
          | inl err =>
              Failed ("failed to read file " +:+ v_path v +:+ ": " +:+ err)
          | inr contentBytes =>
              if negb (utf8_Valid contentBytes)
              then Failed ("content file is not valid UTF-8: " +:+ v_path v)
              else
                match processContent contentBytes opts with
                | (_, _, Some parseErr) =>
                    Failed ("failed to process content for " +:+ v_path v
                            +:+ ": " +:+ parseErr)
                | (meta, htmlOut, None) =>
                    match Rel contentDir (v_path v) with
                    | None => Failed "Rel: can't make path relative"
                    | Some relPath => Document meta htmlOut relPath ext
                    end
                end
          end
  end.

(** The [PageData] that the walk function builds. *)
Definition pageDataOf (meta : PageMeta) (htmlOut relPath : string) : PageData :=
  mkPageData htmlOut (Title meta) (Util.ComputeBaseHref relPath)
    (if negb (String.eqb (StoryAuthor meta) EmptyString)
     then StoryAuthor meta else Config.Author site)
    (if String.eqb (Description meta) EmptyString
     then Config.Description site else Description meta)
    site (ShowEditML meta) (StoryTitle meta) (Params meta).

(** [renderPage(tmpl, outPath, data)]: the file is created, the template
    writes to it; creating a file in the output tree is taken to succeed. *)
Definition renderPage (outPath : string) (data : PageData)
    (fs : gmap string (list byte)) : gmap string (list byte) * option string :=
  let '(written, err) := tmpl data in
  (<[outPath := written]> fs, err).

(** The slug that the draft check looks at. *)
Definition slugOf (relPath ext : string) : string := TrimSuffix relPath ext.

(** The walk function of [BuildSite]: the output after the call, and the
    error it returns. *)
Definition visit (st : Output) (v : Visited) : Output * option string :=
  match load v with
  | NotContent => (st, None)
  | Failed err => (st, Some err)
  | Document meta htmlOut relPath ext =>
      if Draft meta && negb (isExceptionPage (slugOf relPath ext))
      then (st, None)
      else
        let outputPath := Join outputDir (slugOf relPath ext +:+ ".html") in
        let pageData := pageDataOf meta htmlOut relPath in
        match renderPage outputPath pageData (files st) with
        | (fs, Some err) =>
            (mkOutput fs (pagesGenerated st),
             Some ("failed to render page " +:+ v_path v +:+ ": " +:+ err))
        | (fs, None) => (mkOutput fs (S (pagesGenerated st)), None)
        end
  end.

(** [filepath.Walk] with a function that never skips: the calls in order,
    up to the first error. *)
Fixpoint walk (f : Output -> Visited -> Output * option string)
    (tree : list Visited) (st : Output) : Output * option string :=
  match tree with
  | [] => (st, None)
  | v :: rest =>
      match f st v with
      | (st, Some err) => (st, Some err)
      | (st, None) => walk f rest st
      end
  end.

(** The extensions that [copyStaticAssets] lets through. *)
Definition allowedExts (ext : string) : bool :=
  String.eqb ext ".css" || String.eqb ext ".js" || String.eqb ext ".txt"
  || String.eqb ext ".svg" || String.eqb ext ".png" || String.eqb ext ".jpg"
  || String.eqb ext ".jpeg" || String.eqb ext ".gif".

(** The walk function of [copyStaticAssets]. *)
Definition copyAsset (st : Output) (v : Visited) : Output * option string :=
  match v_err v with
  | Some err => (st, Some err)
  | None =>
      if v_isDir v then (st, None)
      else if negb (allowedExts (Ext (Base (v_path v)))) then (st, None)
      else
        match Rel staticDir (v_path v) with
        | None => (st, Some "Rel: can't make path relative"%string)
        | Some rel =>
            match v_file v with
            | inl err => (st, Some err)
            | inr data =>
                (mkOutput (<[Join outputDir rel := data]> (files st))
                          (pagesGenerated st), None)
            end
        end
  end.

(** [BuildSite]: the page count and the error it returns, and the output
    tree it leaves.  Cleaning removes every entry of the output directory. *)
Definition BuildSite (content static : list Visited)
    (existing : gmap string (list byte))
    : nat * option string * gmap string (list byte) :=
  let fs := if CleanDestination opts then ∅ else existing in
  match walk visit content (mkOutput fs 0) with
  | (st, Some err) => (0%nat, Some err, files st)
  | (st, None) =>
      match walk copyAsset static st with
      | (st, Some err) => (0%nat, Some err, files st)
      | (st, None) => (pagesGenerated st, None, files st)
      end
  end.
End Pipeline.

(** The front-matter block as the specification words it is a leading
    region that a line of three dashes opens: a content file with such a
    block starts with three dashes and a line feed. *)
Definition opensWithDelimiterLine (rawContent : list byte) : bool :=
  GoBytes.HasPrefix rawContent
    (bytes_of ("---" +:+ String (ascii_of_nat 10) EmptyString)).

End Builder.

(** ** Package [fsnotify]: events *)

Module fsnotify.

(** [fsnotify.Op], a bit mask. *)
Definition Create : Z := 1.
Definition Write : Z := 2.
Definition Remove : Z := 4.
Definition Rename : Z := 8.
Definition Chmod : Z := 16.

(** [fsnotify.Event]. *)
Record Event := mkEvent { Name : string; Op : Z }.

(** [event.Has(op)]: [event.Op & op != 0]. *)
Definition Has (event : Event) (op : Z) : bool :=
  negb (Z.land (Op event) op =? 0).

End fsnotify.

(** ** Package [server]: the response interceptor *)

Module Server.
Import GoBytes GoStrings Http Builder.

(** One line of text with its line feed. *)
Definition line (s : string) : string := s +:+ String (ascii_of_nat 10) EmptyString.

(** A double-quoted JavaScript string literal. *)
Definition quoted (s : string) : string :=
  String (ascii_of_nat 34) s +:+ String (ascii_of_nat 34) EmptyString.

(** The constant [liveReloadScript]: a raw string literal that opens with a
    line feed and has seventeen lines. *)
Definition liveReloadScript : string :=
  line EmptyString
  +:+ line "<script>"
  +:+ line "  (function() {"
  +:+ line ("    let socket = new WebSocket(" +:+ quoted "ws://"
            +:+ " + window.location.host + " +:+ quoted "/ws" +:+ ");")
  +:+ line "    socket.onmessage = function(event) {"
  +:+ line ("      if (event.data === " +:+ quoted "reload" +:+ ") {")
  +:+ line ("        console.log(" +:+ quoted "Reloading page..." +:+ ");")
  +:+ line "        window.location.reload();"
  +:+ line "      }"
  +:+ line "    };"
  +:+ line "    socket.onclose = function() {"
  +:+ line "      // Don't log on normal close, it's just noise."
  +:+ line "    };"
  +:+ line "    socket.onerror = function(error) {"
  +:+ line ("      console.error("
            +:+ quoted "Live reload connection error. Please restart 'nibl serve'."
            +:+ ");")
  +:+ line "    };"
  +:+ line "  })();"
  +:+ line "</script>".

(** The closing tag the wrapper looks for. *)
Definition closingBody : list byte := bytes_of "</body>".

(** The struct [interceptingWriter]: the embedded writer, the buffered body,
    the captured status code and a header map of its own. *)
Record interceptingWriter (W : Type) := mkInterceptingWriter {
  embedded : W;
  body : list byte;
  statusCode : Z;
  header : Header
}.
Arguments mkInterceptingWriter {W} _ _ _ _.
Arguments embedded {W} _.
Arguments body {W} _.
Arguments statusCode {W} _.
Arguments header {W} _.

Definition newInterceptingWriter {W : Type} (w : W) : interceptingWriter W :=
  mkInterceptingWriter w [] StatusOK ∅.

(** The three methods the struct overrides: [Header], [Write], [WriteHeader]. *)
#[global] Instance intercepting_writer {W : Type} :
  ResponseWriter (interceptingWriter W) := {|
  getHeader := header;
  updHeader f iw :=
    mkInterceptingWriter (embedded iw) (body iw) (statusCode iw) (f (header iw));
  Write b iw :=
    mkInterceptingWriter (embedded iw) (body iw ++ b) (statusCode iw) (header iw);
  WriteHeader code iw :=
    mkInterceptingWriter (embedded iw) (body iw) code (header iw)
|}.

(** [fmt.Sprint] of a length. *)
Definition Sprint (n : nat) : string := pretty n.

(** The local [isHTML] of the wrapper. *)
Definition isHTML (r : Request) : bool :=
  HasSuffix (URL_Path r) ".html" || HasSuffix (URL_Path r) "/".

Section Wrapper.
Variable CanonicalMIMEHeaderKey : string -> string.
Context {W : Type} `{ResponseWriter W}.

(** The three [w.Header().Set] calls that open the wrapper. *)
Definition setNoCache (w : W) : W :=
  let w := updHeader (Header_Set CanonicalMIMEHeaderKey "Cache-Control"
                        "no-cache, no-store, must-revalidate") w in
  let w := updHeader (Header_Set CanonicalMIMEHeaderKey "Pragma" "no-cache") w in
  updHeader (Header_Set CanonicalMIMEHeaderKey "Expires" "0") w.

(** The loop that copies the recorded headers:
    [for key, values := range iw.Header() { for _, value := range values {
    w.Header().Add(key, value) } }]. *)
Definition copyHeaders (recorded : Header) (h : Header) : Header :=
  map_fold (fun key values h =>
              foldl (fun h value => Header_Add CanonicalMIMEHeaderKey key value h)
                    h values)
           h recorded.

(** [liveReloadWrapper(next)], applied to a writer and a request; the result
    is the writer after the call. *)
Definition liveReloadWrapper (next : Handler) (w : W) (r : Request) : W :=
  let w := setNoCache w in
  if negb (isHTML r) then ServeHTTP next w r
  else
    let iw := ServeHTTP next (newInterceptingWriter w) r in
    let w := updHeader (copyHeaders (getHeader iw)) w in
    let bodyBytes := body iw in
    if negb (statusCode iw =? StatusOK) then
      Write bodyBytes (WriteHeader (statusCode iw) w)
    else
      let injectedBody :=
        Replace bodyBytes closingBody
                (bytes_of (liveReloadScript +:+ "</body>")) 1 in
      let w := updHeader (Header_Set CanonicalMIMEHeaderKey "Content-Length"
                            (Sprint (length injectedBody))) w in
      Write injectedBody (WriteHeader (statusCode iw) w).

(** What the inner handler hands to the recorder for a page-like request:
    the captured body and status. *)
Definition captured (next : Handler) (w : W) (r : Request) : interceptingWriter W :=
  ServeHTTP next (newInterceptingWriter (setNoCache w)) r.
End Wrapper.


(** ** Package [server]: the reload hub *)

(** A [*websocket.Conn] is identified by its address. *)
Definition Conn := positive.

(** A connection as the hub deals with it: [failure] is the error its
    transport answers a write with, if it is broken; [closed] says that
    [Close] was called; [attempts] are the messages [WriteMessage] was called
    with and [delivered] those that were written to the peer. *)
Record ConnState := mkConnState {
  failure : option string;
  closed : bool;
  attempts : list (list byte);
  delivered : list (list byte)
}.

(** The error a [WriteMessage] on the connection returns, [None] for [nil]. *)
Definition writeError (cs : ConnState) : option string :=
  if closed cs then Some "use of closed network connection"%string
  else failure cs.

(** The struct [Hub]; the channel [broadcast] is never used and the mutex
    makes each method one step. *)
Record Hub := mkHub { clients : gmap Conn bool }.

(** What the methods of the hub act on: the hub itself, the connections and
    the lines written with [log]. *)
Record World := mkWorld {
  hub : Hub;
  conns : gmap Conn ConnState;
  logged : list string
}.

Definition newHub : Hub := mkHub ∅.

Definition logLine (s : string) (w : World) : World :=
  mkWorld (hub w) (conns w) (logged w ++ [s]).

(** [conn.WriteMessage(websocket.TextMessage, message)]: the new state of the
    connections and the error; a connection that is unknown answers with an
    error. *)
Definition WriteMessage (conn : Conn) (message : list byte)
    (cs : gmap Conn ConnState) : gmap Conn ConnState * option string :=
  match cs !! conn with
  | None => (cs, Some "bad connection"%string)
  | Some c =>
      match writeError c with
      | Some e =>
          (<[conn := mkConnState (failure c) (closed c)
                       (attempts c ++ [message]) (delivered c)]> cs, Some e)
      | None =>
          (<[conn := mkConnState (failure c) (closed c)
                       (attempts c ++ [message]) (delivered c ++ [message])]> cs,
           None)
      end
  end.

(** [conn.Close()]. *)
Definition Close (conn : Conn) (cs : gmap Conn ConnState) : gmap Conn ConnState :=
  alter (fun c => mkConnState (failure c) true (attempts c) (delivered c)) conn cs.

(** [h.register(conn)]. *)
Definition register (conn : Conn) (w : World) : World :=
  logLine "Live-reload client connected."
    (mkWorld (mkHub (<[conn := true]> (clients (hub w)))) (conns w) (logged w)).

(** [h.unregister(conn)]. *)
Definition unregister (conn : Conn) (w : World) : World :=
  match clients (hub w) !! conn with
  | Some _ =>
      logLine "Live-reload client disconnected."
        (mkWorld (mkHub (delete conn (clients (hub w)))) (Close conn (conns w))
                 (logged w))
  | None => w
  end.

(** The body of the loop of [broadcastMessage], for one client. *)
Definition sendTo (message : list byte) (client : Conn) (w : World) : World :=
  match WriteMessage client message (conns w) with
  | (cs, None) => mkWorld (hub w) cs (logged w)
  | (cs, Some err) =>
      mkWorld (mkHub (delete client (clients (hub w)))) (Close client cs)
              (logged w ++ ["Error writing to client: " +:+ err])
  end.

(** [h.broadcastMessage(message)]: the loop ranges over the clients of the
    hub; deleting the entry at hand leaves the others to be visited, each
    once, in an order Go does not fix. *)
Definition broadcastMessage (message : list byte) (w : World) : World :=
  map_fold (fun client _ w => sendTo message client w) w (clients (hub w)).

(** What one [WriteMessage] of the loop, and the [Close] that follows an
    error, make of a connection. *)
Definition afterSend (message : list byte) (c : ConnState) : ConnState :=
  match writeError c with
  | Some _ => mkConnState (failure c) true (attempts c ++ [message]) (delivered c)
  | None =>
      mkConnState (failure c) (closed c) (attempts c ++ [message])
                  (delivered c ++ [message])
  end.

(** A write to the connection fails. *)
Definition writeFails (cs : gmap Conn ConnState) (conn : Conn) : bool :=
  match cs !! conn with
  | Some c => bool_decide (is_Some (writeError c))
  | None => true
  end.

(** ** Package [server]: the watch loop *)

(** Milliseconds: [debounceDuration], the delay of [time.Sleep], and the
    largest [time.Duration], which [time.Since] answers for the zero
    [time.Time]. *)
Definition debounceDuration : Z := 500.
Definition settleDelay : Z := 100.
Definition maxDuration : Z := 9223372036854.

(** [time.Since(t)] at the instant [now]; [None] is the zero [time.Time]. *)
Definition time_Since (now : Z) (t : option Z) : Z :=
  match t with
  | None => maxDuration
  | Some t => now - t
  end.

(** What the [select] of the loop receives: an event, which reaches the
    channel at some instant, an error, or the closing of either channel. *)
Inductive Received :=
| FromEvents (at_ms : Z) (event : fsnotify.Event)
| FromErrors (err : string)
| EventsClosed
| ErrorsClosed.

(** One call of [buildFunc] by the loop: when the event was taken, when the
    build was called, when it returned, and its error. *)
Record Rebuild := mkRebuild {
  triggered : Z;
  invoked : Z;
  finished : Z;
  failed : option string
}.

(** The loop: its variable [lastBuildTime], its clock, the hub and the
    connections, and what it has called so far. *)
Record Loop := mkLoop {
  lastBuildTime : option Z;
  now : Z;
  world : World;
  rebuilds : list Rebuild;
  broadcasts : list (list byte)
}.

Definition startLoop (w : World) : Loop := mkLoop None 0 w [] [].

(** The condition on the event in the loop. *)
Definition qualifies (event : fsnotify.Event) : bool :=
  fsnotify.Has event fsnotify.Write || fsnotify.Has event fsnotify.Create
  || fsnotify.Has event fsnotify.Remove || fsnotify.Has event fsnotify.Rename.

(** The gate of the loop, [time.Since(lastBuildTime) > debounceDuration]. *)
Definition gateOpen (st : Loop) : bool :=
  debounceDuration <? time_Since (now st) (lastBuildTime st).

Section Watch.
(** [buildFunc]: called with the options at some instant, it takes some time
    and returns an error or [nil]. *)
Variable buildFunc : BuildOptions -> Z -> Z * option string.
Variable opts : BuildOptions.


(** The loop blocks in its [select] until the event is there: its clock
    moves on to the instant of the event when that is later. *)
Definition arrive (at_ms : Z) (st : Loop) : Loop :=
  mkLoop (lastBuildTime st) (Z.max (now st) at_ms) (world st)
         (rebuilds st) (broadcasts st).

(** The case [event, ok := <-watcher.Events] with [ok] true. *)
Definition onEvent (at_ms : Z) (event : fsnotify.Event) (st : Loop) : Loop :=
  let st := arrive at_ms st in
  if qualifies event then
    if gateOpen st then
      let called := now st + settleDelay in
      let w := logLine ("Change detected in " +:+ fsnotify.Name event
                        +:+ ", rebuilding...") (world st) in
      let '(took, err) := buildFunc opts called in
      let done := called + took in
      match err with
      | Some e =>
          mkLoop (Some done) done
                 (logLine ("Error rebuilding site: " +:+ e) w)
                 (rebuilds st ++ [mkRebuild (now st) called done err])
                 (broadcasts st)
      | None =>
          mkLoop (Some done) done
                 (broadcastMessage (bytes_of "reload")
                    (logLine "Site rebuilt successfully. Triggering reload..." w))
                 (rebuilds st ++ [mkRebuild (now st) called done err])
                 (broadcasts st ++ [bytes_of "reload"])
      end
    else st
  else st.

(** The case [err, ok := <-watcher.Errors] with [ok] true. *)
Definition onError (err : string) (st : Loop) : Loop :=
  mkLoop (lastBuildTime st) (now st)
         (logLine ("Watcher error: " +:+ err) (world st))
         (rebuilds st) (broadcasts st).

(** [watchForChanges]: the loop over what it receives.  The result is the
    state it has reached and whether the function has returned. *)
Fixpoint watchForChanges (inputs : list Received) (st : Loop) : Loop * bool :=
  match inputs with
  | [] => (st, false)
  | FromEvents at_ms event :: rest => watchForChanges rest (onEvent at_ms event st)
  | FromErrors err :: rest => watchForChanges rest (onError err st)
  | EventsClosed :: _ => (st, true)
  | ErrorsClosed :: _ => (st, true)
  end.

(** The events of a burst as the loop receives them. *)
Definition burstOf (events : list (Z * fsnotify.Event)) : list Received :=
  map (fun e => FromEvents (fst e) (snd e)) events.

(** The loop after the events of a burst, one after the other. *)
Definition handle (events : list (Z * fsnotify.Event)) (st : Loop) : Loop :=
  (watchForChanges (burstOf events) st).1.
End Watch.

(** The spacing of the rebuilds of a loop: each one was called [settleDelay]
    after it was triggered, and triggered more than [debounceDuration] after
    the one before it returned. *)
Fixpoint spaced (prev : option Z) (l : list Rebuild) : Prop :=
  match l with
  | [] => True
  | r :: l' =>
      debounceDuration < time_Since (triggered r) prev
      /\ invoked r = triggered r + settleDelay
      /\ spaced (Some (finished r)) l'
  end.

(** What the loop keeps true: its rebuilds are spaced, and [lastBuildTime] is
    the instant the last of them returned. *)
Definition settled (st : Loop) : Prop :=
  spaced None (rebuilds st)
  /\ lastBuildTime st = finished <$> last (rebuilds st).

End Server.

(** ** Scenarios: concrete handlers, connections, events and builds *)

Module Scenarios.
Import Http Server.

(** A page with a body element, and a fragment without one. *)
Definition page : list byte := bytes_of "<html><body><p>hi</p></body></html>".
Definition fragment : list byte := bytes_of "<p>hi</p>".

(** A handler that writes [b] and never calls [WriteHeader]. *)
Definition writes (b : list byte) : Handler := fun _ => CallWrite b Return.

(** A handler that calls [WriteHeader(code)] and writes [b]. *)
Definition answers (code : Z) (b : list byte) : Handler :=
  fun _ => CallWriteHeader code (CallWrite b Return).

(** The answer of a file server for a file that is not there. *)
Definition notFound : Handler :=
  fun _ => CallWriteHeader 404 (CallWrite (bytes_of "404 page not found") Return).

(** A world with two clients, the second with a broken transport, and a
    third connection that has not registered. *)
Definition healthy : ConnState := mkConnState None false [] [].
Definition broken : ConnState :=
  mkConnState (Some "broken pipe"%string) false [] [].
Definition twoClients : World :=
  mkWorld (mkHub (<[2%positive := true]> (<[1%positive := true]> ∅)))
          (<[3%positive := healthy]>
             (<[2%positive := broken]> (<[1%positive := healthy]> ∅)))
          [].

(** A write to a content file, and a change of its mode. *)
Definition saved : fsnotify.Event :=
  fsnotify.mkEvent "content/post.md" fsnotify.Write.
Definition touched : fsnotify.Event :=
  fsnotify.mkEvent "content/post.md" fsnotify.Chmod.

(** Builds that take 50 ms or 700 ms and succeed, and one that fails. *)
Definition quickBuild : Builder.BuildOptions -> Z -> Z * option string :=
  fun _ _ => (50, None).
Definition slowBuild : Builder.BuildOptions -> Z -> Z * option string :=
  fun _ _ => (700, None).
Definition failingBuild : Builder.BuildOptions -> Z -> Z * option string :=
  fun _ _ => (50, Some "failed to process content"%string).

Definition watchOpts : Builder.BuildOptions := Builder.mkBuildOptions false false false.

(** A line feed, and text made of lines. *)
Definition nl : string := String (ascii_of_nat 10) EmptyString.

(** Notes without front matter and with two thematic breaks. *)
Definition notes : list byte :=
  bytes_of ("# Notes" +:+ nl +:+ "---" +:+ nl +:+ "first" +:+ nl
            +:+ "---" +:+ nl +:+ "second").

(** A post with a front-matter block that marks it as a draft. *)
Definition draftPost : list byte :=
  bytes_of ("---" +:+ nl +:+ "draft: true" +:+ nl +:+ "---" +:+ nl +:+ "Body").

(** Stand-ins for the libraries: a YAML reader that only knows the line
    [draft: true], a Markdown renderer and a sanitizer that change nothing,
    a template that writes the content of the page. *)
Definition toyYaml (data : list byte) (meta : Builder.PageMeta)
    : string + Builder.PageMeta :=
  match GoBytes.Index data (bytes_of "draft: true") with
  | Some _ =>
      inr (Builder.mkPageMeta (Builder.Title meta) (Builder.Author meta) true
             (Builder.Description meta) (Builder.ShowEditML meta)
             (Builder.StoryTitle meta) (Builder.StoryAuthor meta)
             (Builder.Params meta))
  | None => inr meta
  end.
Definition toyMarkdown (b : list byte) : string + list byte := inr b.
Definition toySanitize (b : list byte) : list byte := b.
Definition anyValid (b : list byte) : bool := true.
Definition toyTemplate : Builder.Template :=
  fun data => (bytes_of (Builder.pd_Content data), None).
Definition toySite : Config.SiteConfig :=
  Config.mkSiteConfig "Site" "Someone" "http://localhost" "A site" "default".
Definition genOpts : Builder.BuildOptions := Builder.mkBuildOptions true false false.

(** The pipeline on the stand-ins, from [content] to [public]. *)
Definition toyLoad : Builder.Visited -> Builder.Loaded :=
  Builder.load toyYaml toyMarkdown toySanitize anyValid "content" genOpts.
Definition toyBuild (content : list Builder.Visited)
    : nat * option string * gmap string (list byte) :=
  Builder.BuildSite toyYaml toyMarkdown toySanitize anyValid "public" "content"
                    "static" toySite toyTemplate genOpts content [] ∅.

(** Content files that hold the draft post. *)
Definition fileAt (path : string) (data : list byte) : Builder.Visited :=
  Builder.mkVisited path false None (inr data).
Definition contentRoot : Builder.Visited :=
  Builder.mkVisited "content" true None (inl "is a directory"%string).

End Scenarios.

(** * Properties *)

(** ** Facts about [bytes] *)

Module GoBytesFacts.
Import GoBytes.
Section Bytes.
Context {A : Type} `{EqDecision A}.
Implicit Types s sep prefix pre post old new : list A.

Lemma HasPrefix_spec s prefix :
  HasPrefix s prefix = true <-> exists post, s = prefix ++ post.
Proof.
  revert s; induction prefix as [|p prefix IH]; intros s; simpl.
  - split; [eauto | done].
  - destruct s as [|c s]; simpl.
    + split; [done | intros [post Hp]; discriminate].
    + destruct (decide (p = c)) as [->|Hne].
      * rewrite IH. split; intros [post Hp]; exists post; congruence.
      * split; [done | intros [post Hp]; congruence].
Qed.

Lemma occurs_at_0 s sep : occurs_at s sep 0 <-> HasPrefix s sep = true.
Proof.
  rewrite HasPrefix_spec. split.
  - intros (pre & post & -> & Hl). destruct pre; [eauto | discriminate].
  - intros [post ->]. by exists [], post.
Qed.

Lemma occurs_at_S c s sep i : occurs_at (c :: s) sep (S i) <-> occurs_at s sep i.
Proof.
  split.
  - intros (pre & post & Heq & Hl). destruct pre as [|c' pre]; [discriminate|].
    simpl in *. exists pre, post. split; congruence.
  - intros (pre & post & -> & Hl). exists (c :: pre), post. simpl. auto.
Qed.

Lemma occurs_at_nil_S sep i : ~ occurs_at [] sep (S i).
Proof. intros (pre & post & Heq & Hl). destruct pre; discriminate. Qed.

(** [Index] finds an instance, and it is the first one. *)
Lemma Index_Some s sep i :
  Index s sep = Some i ->
  occurs_at s sep i /\ forall j, (j < i)%nat -> ~ occurs_at s sep j.
Proof.
  revert i; induction s as [|c s IH]; intros i; simpl.
  - destruct (HasPrefix [] sep) eqn:Hp; [|done].
    intros [= <-]. split; [by apply occurs_at_0 | lia].
  - destruct (HasPrefix (c :: s) sep) eqn:Hp.
    + intros [= <-]. split; [by apply occurs_at_0 | lia].
    + destruct (Index s sep) as [k|] eqn:Hk; [|done].
      intros [= <-]. destruct (IH k eq_refl) as [Hocc Hfirst]. split.
      * by apply occurs_at_S.
      * intros [|j] Hj.
        -- rewrite occurs_at_0. congruence.
        -- rewrite occurs_at_S. apply Hfirst. lia.
Qed.

(** [Index] answers [-1] only when there is no instance at all. *)
Lemma Index_None s sep : Index s sep = None -> forall i, ~ occurs_at s sep i.
Proof.
  induction s as [|c s IH]; simpl.
  - destruct (HasPrefix [] sep) eqn:Hp; [done|].
    intros _ [|i]; [rewrite occurs_at_0; congruence | apply occurs_at_nil_S].
  - destruct (HasPrefix (c :: s) sep) eqn:Hp; [done|].
    destruct (Index s sep) eqn:Hk; [done|]. intros _ [|i].
    + rewrite occurs_at_0. congruence.
    + rewrite occurs_at_S. by apply IH.
Qed.

Lemma Index_first s sep i :
  occurs_at s sep i -> (forall j, (j < i)%nat -> ~ occurs_at s sep j) ->
  Index s sep = Some i.
Proof.
  intros Hocc Hfirst. destruct (Index s sep) as [k|] eqn:Hk.
  - destruct (Index_Some _ _ _ Hk) as [Hk1 Hk2].
    destruct (Nat.lt_trichotomy k i) as [Hlt|[->|Hgt]]; [|done|].
    + by destruct (Hfirst k Hlt).
    + by destruct (Hk2 i Hgt).
  - by destruct (Index_None _ _ Hk i).
Qed.

Lemma Index_absent s sep : (forall i, ~ occurs_at s sep i) -> Index s sep = None.
Proof.
  intros Hno. destruct (Index s sep) as [k|] eqn:Hk; [|done].
  destruct (Index_Some _ _ _ Hk) as [Hk1 _]. by destruct (Hno k).
Qed.

(** The cut of [s] at the instance that [Index] finds. *)
Lemma Index_split s sep i :
  Index s sep = Some i ->
  s = take i s ++ sep ++ drop (i + length sep) s /\ length (take i s) = i.
Proof.
  intros Hi. destruct (Index_Some _ _ _ Hi) as [(pre & post & -> & Hl) _].
  subst i. rewrite take_app_length, drop_app_add', drop_app_length by done. done.
Qed.

(** Replacing once: at the first instance when there is one. *)
Lemma Replace_once_found pre post old new :
  (forall j, (j < length pre)%nat -> ~ occurs_at (pre ++ old ++ post) old j) ->
  Replace (pre ++ old ++ post) old new 1 = pre ++ new ++ post.
Proof.
  intros Hfirst. simpl.
  rewrite (Index_first _ _ (length pre)); [|by exists pre, post|done].
  by rewrite take_app_length, drop_app_add', drop_app_length.
Qed.

Lemma Replace_once_absent s old new :
  (forall i, ~ occurs_at s old i) -> Replace s old new 1 = s.
Proof. intros Hno. simpl. by rewrite Index_absent. Qed.

Lemma occurrences_0_iff s sep : occurrences s sep = 0%nat <-> Index s sep = None.
Proof.
  induction s as [|c s IH]; simpl.
  - destruct (HasPrefix [] sep); simpl; split; (done || lia).
  - destruct (HasPrefix (c :: s) sep); simpl; [split; (done || lia)|].
    rewrite IH. destruct (Index s sep); simpl; split; done.
Qed.

End Bytes.
End GoBytesFacts.

(** ** Facts about [strings] *)

Module GoStringsFacts.
Import GoStrings.

Lemma append_cons c s t : String c s +:+ t = String c (s +:+ t).
Proof. reflexivity. Qed.

Lemma slice_to_from i s : slice_to i s +:+ slice_from i s = s.
Proof.
  revert s; induction i as [|i IH]; intros [|c s]; simpl; try done.
  rewrite append_cons. f_equal. apply IH.
Qed.

Lemma CountChar_app s t c :
  CountChar (s +:+ t) c = (CountChar s c + CountChar t c)%nat.
Proof.
  induction s as [|d s IH]; [done|].
  rewrite append_cons. simpl. rewrite IH. lia.
Qed.

(** A trimmed string is a prefix of the original one. *)
Lemma TrimSuffix_prefix s suffix : exists t, s = TrimSuffix s suffix +:+ t.
Proof.
  unfold TrimSuffix. destruct (HasSuffix s suffix).
  - eexists. symmetry. apply slice_to_from.
  - exists EmptyString. induction s as [|c s IH]; [done|].
    rewrite append_cons. by rewrite <- IH.
Qed.

Lemma HasSuffix_slice s suffix :
  HasSuffix s suffix = true ->
  s = slice_to (String.length s - String.length suffix) s +:+ suffix.
Proof.
  unfold HasSuffix. intros [_ Heq%String.eqb_eq]%andb_true_iff.
  pose proof (slice_to_from (String.length s - String.length suffix) s) as E.
  by rewrite Heq in E.
Qed.

End GoStringsFacts.

(** ** Facts about response writers *)

Module HttpFacts.
Import Http.

(** On the server's writer the client gets exactly the produced bytes. *)
Lemma run_response_body c (w : response) :
  sentBody (run c w) = sentBody w ++ produced c w.
Proof.
  revert w; induction c as [|k IH|f k IH|code k IH|b k IH]; intros w; simpl.
  - by rewrite app_nil_r.
  - apply IH.
  - by rewrite IH.
  - rewrite IH. unfold response_WriteHeader. by destruct (wroteHeader w).
  - rewrite IH. unfold response_Write, response_WriteHeader.
    destruct (wroteHeader w); simpl; by rewrite <- app_assoc.
Qed.

(** Once the header is out, status and sent headers are fixed. *)
Lemma run_response_wrote c (w : response) :
  wroteHeader w = true ->
  wroteHeader (run c w) = true /\ status (run c w) = status w
  /\ sentHeader (run c w) = sentHeader w.
Proof.
  revert w; induction c as [|k IH|f k IH|code k IH|b k IH]; intros w Hw; simpl.
  - done.
  - by apply IH.
  - by apply (IH (mkResponse _ _ _ _ _)).
  - unfold response_WriteHeader. rewrite Hw. by apply IH.
  - unfold response_Write. rewrite Hw.
    by apply (IH (mkResponse _ _ _ _ _)).
Qed.

End HttpFacts.

(** ** The response interceptor *)

Module WrapperFacts.
Import GoBytes GoStrings Http Server Scenarios GoBytesFacts HttpFacts.

(** The recorder keeps the writer it embeds untouched and appends every
    written chunk to its buffer. *)
Lemma run_intercepting {W} c (iw : interceptingWriter W) :
  embedded (run c iw) = embedded iw
  /\ body (run c iw) = body iw ++ produced c iw.
Proof.
  revert iw; induction c as [|k IH|f k IH|code k IH|b k IH]; intros iw;
    cbn [run produced].
  - by rewrite app_nil_r.
  - apply IH.
  - destruct (IH (updHeader f iw)) as [-> ->]. done.
  - destruct (IH (WriteHeader code iw)) as [-> ->]. done.
  - destruct (IH (Write b iw)) as [-> ->]. simpl. by rewrite <- app_assoc.
Qed.

(** Without a [WriteHeader] call the recorded status stays what it was. *)
Lemma run_intercepting_status {W} c (iw : interceptingWriter W) :
  no_WriteHeader c iw = true -> statusCode (run c iw) = statusCode iw.
Proof.
  revert iw; induction c as [|k IH|f k IH|code k IH|b k IH]; intros iw;
    cbn [run no_WriteHeader].
  - done.
  - apply IH.
  - intros Hn. by rewrite (IH _ Hn).
  - done.
  - intros Hn. by rewrite (IH _ Hn).
Qed.

(** The script is the 508 bytes of the raw string literal. *)
Example liveReloadScript_length : length (bytes_of liveReloadScript) = 508%nat.
Proof. vm_compute. reflexivity. Qed.

Lemma script_then_tag :
  bytes_of (liveReloadScript +:+ "</body>") = bytes_of liveReloadScript ++ closingBody.
Proof. vm_compute. reflexivity. Qed.

Section Wrapper.
Variable canon : string -> string.
Implicit Types (w : response) (r : Request) (next : Handler).

Lemma setNoCache_response w :
  setNoCache canon w =
  mkResponse
    (<[canon "Expires" := ["0"%string]]>
       (<[canon "Pragma" := ["no-cache"%string]]>
          (<[canon "Cache-Control" := ["no-cache, no-store, must-revalidate"%string]]>
             (handlerHeader w))))
    (wroteHeader w) (status w) (sentHeader w) (sentBody w).
Proof. reflexivity. Qed.

Lemma captured_body next w r :
  body (captured canon next w r)
  = produced (next r) (newInterceptingWriter (setNoCache canon w)).
Proof.
  unfold captured, ServeHTTP.
  destruct (run_intercepting (next r) (newInterceptingWriter (setNoCache canon w)))
    as [_ ->]. done.
Qed.

(** The wrapper on a page-like request, in terms of what was captured. *)
Lemma wrapper_page {W} `{ResponseWriter W} next (w : W) r :
  isHTML r = true ->
  liveReloadWrapper canon next w r =
  let iw := captured canon next w r in
  let w1 := updHeader (copyHeaders canon (header iw)) (setNoCache canon w) in
  if negb (statusCode iw =? StatusOK) then
    Write (body iw) (WriteHeader (statusCode iw) w1)
  else
    let injectedBody :=
      Replace (body iw) closingBody (bytes_of (liveReloadScript +:+ "</body>")) 1 in
    Write injectedBody
      (WriteHeader (statusCode iw)
         (updHeader (Header_Set canon "Content-Length" (Sprint (length injectedBody)))
                    w1)).
Proof. intros Hhtml. unfold liveReloadWrapper. by rewrite Hhtml. Qed.

(** The rewrite path of the wrapper, on a writer that has sent nothing. *)
Lemma wrapper_ok_path next w r :
  isHTML r = true -> wroteHeader w = false ->
  statusCode (captured canon next w r) = StatusOK ->
  let w' := liveReloadWrapper canon next w r in
  let injected :=
    Replace (body (captured canon next w r)) closingBody
            (bytes_of liveReloadScript ++ closingBody) 1 in
  status w' = StatusOK
  /\ sentBody w' = sentBody w ++ injected
  /\ Header_Values canon "Content-Length" (sentHeader w')
     = [Sprint (length injected)].
Proof.
  intros Hhtml Hw Hok. rewrite wrapper_page by done. cbv zeta.
  rewrite Hok, script_then_tag.
  change (negb (StatusOK =? StatusOK)) with false. cbv iota.
  generalize (captured canon next w r); intros iw. simpl.
  unfold response_Write, response_WriteHeader, response_updHeader. simpl.
  rewrite Hw. simpl. split; [done|]. split; [done|].
  unfold Header_Values, Header_Set. by rewrite lookup_insert_eq.
Qed.

(** The same, for a writer that is fresh, in terms of what the inner handler
    wrote. *)
Lemma wrapper_rewrites next w r :
  isHTML r = true -> wroteHeader w = false -> sentBody w = [] ->
  statusCode (captured canon next w r) = StatusOK ->
  status (liveReloadWrapper canon next w r) = StatusOK
  /\ sentBody (liveReloadWrapper canon next w r)
     = Replace (produced (next r) (newInterceptingWriter (setNoCache canon w)))
               closingBody (bytes_of liveReloadScript ++ closingBody) 1
  /\ Header_Values canon "Content-Length"
       (sentHeader (liveReloadWrapper canon next w r))
     = [Sprint (length (sentBody (liveReloadWrapper canon next w r)))].
Proof.
  intros Hhtml Hw Hb Hok.
  destruct (wrapper_ok_path next w r Hhtml Hw Hok) as (Hst & Hbody & Hlen).
  rewrite Hb, captured_body in Hbody. rewrite captured_body in Hlen.
  split; [done|]. split; [done|]. by rewrite Hbody.
Qed.

(** The pass-through path for a page-like request. *)
Lemma wrapper_other_status next w r :
  isHTML r = true -> wroteHeader w = false ->
  statusCode (captured canon next w r) <> StatusOK ->
  let w' := liveReloadWrapper canon next w r in
  status w' = statusCode (captured canon next w r)
  /\ sentBody w' = sentBody w ++ body (captured canon next w r).
Proof.
  intros Hhtml Hw Hne. rewrite wrapper_page by done. cbv zeta.
  destruct (Z.eqb_spec (statusCode (captured canon next w r)) StatusOK) as [|_];
    [done|].
  generalize (captured canon next w r); intros iw. simpl.
  unfold response_Write, response_WriteHeader, response_updHeader. simpl.
  by rewrite Hw.
Qed.

(** A request that is not page-like goes to the inner handler directly. *)
Lemma wrapper_direct {W} `{ResponseWriter W} next (w : W) r :
  isHTML r = false ->
  liveReloadWrapper canon next w r = ServeHTTP next (setNoCache canon w) r.
Proof. intros Hn. unfold liveReloadWrapper. by rewrite Hn. Qed.

(** C1 (amended).  For a page-like request whose inner handler answers with
    status 200, the wrapper forwards status 200 and sets Content-Length to the
    byte length of the body it forwards.  When the captured body contains the
    closing body tag, the forwarded body is the captured one with the reload
    script inserted once, immediately before the first closing body tag, and
    every other byte as it was; when the captured body has no closing body
    tag, it is forwarded as it is, without the script. *)
Theorem script_injected_before_first_closing_tag next w r :
  isHTML r = true -> wroteHeader w = false -> sentBody w = [] ->
  statusCode (captured canon next w r) = StatusOK ->
  let b := produced (next r) (newInterceptingWriter (setNoCache canon w)) in
  let w' := liveReloadWrapper canon next w r in
  status w' = StatusOK
  /\ Header_Values canon "Content-Length" (sentHeader w')
     = [Sprint (length (sentBody w'))]
  /\ (forall pre post,
        b = pre ++ closingBody ++ post ->
        (forall j, (j < length pre)%nat -> ~ occurs_at b closingBody j) ->
        sentBody w' = pre ++ bytes_of liveReloadScript ++ closingBody ++ post)
  /\ ((forall i, ~ occurs_at b closingBody i) -> sentBody w' = b).
Proof.
  intros Hhtml Hw Hb Hok b w'.
  destruct (wrapper_rewrites next w r Hhtml Hw Hb Hok) as (Hst & Hbody & Hlen).
  fold b w' in Hst, Hbody, Hlen. clearbody b w'.
  split; [done|]. split; [done|]. split.
  - intros pre post Heq Hfirst. rewrite Hbody, Heq.
    rewrite Replace_once_found; [by rewrite <- app_assoc | by rewrite <- Heq].
  - intros Hno. rewrite Hbody. by apply Replace_once_absent.
Qed.

(** C7.  A page-like request whose inner handler answers with a status other
    than 200 gets that status and exactly the bytes the inner handler wrote;
    a request that is not page-like gets exactly the bytes the inner handler
    wrote. *)
Theorem other_responses_pass_through next w r :
  wroteHeader w = false -> sentBody w = [] ->
  let w' := liveReloadWrapper canon next w r in
  (isHTML r = true -> statusCode (captured canon next w r) <> StatusOK ->
   status w' = statusCode (captured canon next w r)
   /\ sentBody w' = produced (next r) (newInterceptingWriter (setNoCache canon w)))
  /\ (isHTML r = false ->
      sentBody w' = produced (next r) (setNoCache canon w)).
Proof.
  intros Hw Hb w'. split.
  - intros Hhtml Hne.
    destruct (wrapper_other_status next w r Hhtml Hw Hne) as [Hst Hbody].
    split; [done|]. fold w' in Hbody. by rewrite Hbody, Hb, captured_body.
  - intros Hn. unfold w'. rewrite wrapper_direct by done. unfold ServeHTTP.
    rewrite run_response_body. by rewrite setNoCache_response; simpl; rewrite Hb.
Qed.

(** C8 (amended).  A request that is not page-like is served by the inner
    handler itself, on the real writer and without any buffering; the writer
    it is handed already carries the three cache-disabling headers
    (Cache-Control, Pragma, Expires) and is otherwise as it came in, and what
    the inner handler writes is what the client gets. *)
Theorem non_page_request_served_directly next w r :
  isHTML r = false ->
  let w0 := setNoCache canon w in
  liveReloadWrapper canon next w r = run (next r) w0
  /\ handlerHeader w0
     = <[canon "Expires" := ["0"%string]]>
         (<[canon "Pragma" := ["no-cache"%string]]>
            (<[canon "Cache-Control" := ["no-cache, no-store, must-revalidate"%string]]>
               (handlerHeader w)))
  /\ wroteHeader w0 = wroteHeader w /\ status w0 = status w
  /\ sentHeader w0 = sentHeader w /\ sentBody w0 = sentBody w
  /\ sentBody (liveReloadWrapper canon next w r)
     = sentBody w ++ produced (next r) w0.
Proof.
  intros Hn w0. rewrite wrapper_direct by done. unfold ServeHTTP. fold w0.
  rewrite run_response_body. unfold w0. rewrite setNoCache_response. simpl.
  repeat split; done.
Qed.

(** C9.  The recorder starts with status 200; so a page-like request whose
    inner handler writes its body without any [WriteHeader] call is answered
    on the rewrite path: status 200, the body with the script substituted at
    the first closing body tag, and Content-Length set to the length of the
    rewritten body. *)
Theorem implicit_status_takes_rewrite_path next w r :
  isHTML r = true -> wroteHeader w = false -> sentBody w = [] ->
  no_WriteHeader (next r) (newInterceptingWriter (setNoCache canon w)) = true ->
  let b := produced (next r) (newInterceptingWriter (setNoCache canon w)) in
  let w' := liveReloadWrapper canon next w r in
  statusCode (newInterceptingWriter w) = StatusOK
  /\ statusCode (captured canon next w r) = StatusOK
  /\ status w' = StatusOK
  /\ sentBody w'
     = Replace b closingBody (bytes_of liveReloadScript ++ closingBody) 1
  /\ Header_Values canon "Content-Length" (sentHeader w')
     = [Sprint (length (sentBody w'))].
Proof.
  intros Hhtml Hw Hb Hno b w'.
  assert (Hok : statusCode (captured canon next w r) = StatusOK).
  { unfold captured, ServeHTTP. by rewrite run_intercepting_status. }
  destruct (wrapper_rewrites next w r Hhtml Hw Hb Hok) as (Hst & Hbody & Hlen).
  fold b w' in Hst, Hbody, Hlen. clearbody b w'.
  repeat split; done.
Qed.

End Wrapper.

(** C1, as stated, fails: a page-like request answered with status 200 and a
    body without a closing body tag is forwarded without the script. *)
Lemma no_closing_tag_no_script :
  let r := mkRequest "/" in
  let w' := liveReloadWrapper id (answers 200 fragment) newResponse r in
  isHTML r = true
  /\ statusCode (captured id (answers 200 fragment) newResponse r) = StatusOK
  /\ status w' = StatusOK
  /\ sentBody w' = fragment
  /\ occurrences (sentBody w') (bytes_of liveReloadScript) = 0%nat.
Proof. vm_compute. repeat split; reflexivity. Qed.

Lemma script_injected_witness :
  let r := mkRequest "/index.html" in
  let w' := liveReloadWrapper id (answers 200 page) newResponse r in
  isHTML r = true /\ wroteHeader newResponse = false /\ sentBody newResponse = []
  /\ statusCode (captured id (answers 200 page) newResponse r) = StatusOK
  /\ status w' = StatusOK
  /\ Header_Values id "Content-Length" (sentHeader w')
     = [Sprint (length (sentBody w'))].
Proof.
  pose proof (script_injected_before_first_closing_tag id (answers 200 page)
                newResponse (mkRequest "/index.html")
                eq_refl eq_refl eq_refl eq_refl) as (Hst & Hlen & _).
  repeat split; assumption.
Defined.

Lemma pass_through_witness :
  let r := mkRequest "/missing.html" in
  let w' := liveReloadWrapper id notFound newResponse r in
  wroteHeader newResponse = false /\ sentBody newResponse = []
  /\ status w' = 404 /\ sentBody w' = bytes_of "404 page not found".
Proof.
  pose proof (other_responses_pass_through id notFound newResponse
                (mkRequest "/missing.html") eq_refl eq_refl) as [Hpage _].
  destruct (Hpage eq_refl) as [Hst Hbody]; [vm_compute; discriminate|].
  repeat split; assumption.
Defined.

(** C8, as stated, fails: the response to a request that is not page-like
    carries a Cache-Control header that the inner handler never set. *)
Lemma non_page_response_gets_cache_headers :
  let r := mkRequest "/style.css" in
  isHTML r = false
  /\ sentHeader (liveReloadWrapper id (answers 200 fragment) newResponse r)
       !! "Cache-Control"%string
     = Some ["no-cache, no-store, must-revalidate"%string]
  /\ sentHeader (ServeHTTP (answers 200 fragment) newResponse r)
       !! "Cache-Control"%string = None
  /\ liveReloadWrapper id (answers 200 fragment) newResponse r
     <> ServeHTTP (answers 200 fragment) newResponse r.
Proof.
  assert (H1 : sentHeader (liveReloadWrapper id (answers 200 fragment)
                             newResponse (mkRequest "/style.css"))
                !! "Cache-Control"%string
               = Some ["no-cache, no-store, must-revalidate"%string])
    by (vm_compute; reflexivity).
  assert (H2 : sentHeader (ServeHTTP (answers 200 fragment) newResponse
                             (mkRequest "/style.css")) !! "Cache-Control"%string
               = None) by (vm_compute; reflexivity).
  split; [reflexivity|]. split; [exact H1|]. split; [exact H2|].
  intros Heq. rewrite Heq, H2 in H1. discriminate.
Qed.

Lemma non_page_witness :
  let r := mkRequest "/style.css" in
  isHTML r = false
  /\ liveReloadWrapper id (answers 200 fragment) newResponse r
     = run (answers 200 fragment r) (setNoCache id newResponse).
Proof.
  pose proof (non_page_request_served_directly id (answers 200 fragment)
                newResponse (mkRequest "/style.css") eq_refl) as (Heq & _).
  split; [reflexivity | exact Heq].
Defined.

Lemma implicit_status_witness :
  let r := mkRequest "/" in
  let w' := liveReloadWrapper id (writes page) newResponse r in
  isHTML r = true /\ wroteHeader newResponse = false /\ sentBody newResponse = []
  /\ no_WriteHeader (writes page r)
       (newInterceptingWriter (setNoCache id newResponse)) = true
  /\ status w' = StatusOK.
Proof.
  pose proof (implicit_status_takes_rewrite_path id (writes page) newResponse
                (mkRequest "/") eq_refl eq_refl eq_refl eq_refl)
    as (_ & _ & Hst & _).
  repeat split; assumption.
Defined.

End WrapperFacts.

(** ** The reload hub *)

Module HubFacts.
Import Server.

Lemma sendTo_conns message client w c :
  conns (sendTo message client w) !! c
  = if decide (c = client) then afterSend message <$> conns w !! client
    else conns w !! c.
Proof.
  unfold sendTo, WriteMessage, afterSend, Close.
  destruct (conns w !! client) as [cs|] eqn:Hcs; simpl.
  - destruct (writeError cs) as [e|] eqn:He; simpl;
      destruct (decide (c = client)) as [->|Hne];
      rewrite ?lookup_alter_eq, ?lookup_alter_ne, ?lookup_insert_eq,
        ?lookup_insert_ne by done; done.
  - destruct (decide (c = client)) as [->|Hne];
      rewrite ?lookup_alter_eq, ?lookup_alter_ne, ?Hcs by done; done.
Qed.

Lemma sendTo_clients message client w c :
  clients (hub (sendTo message client w)) !! c
  = if decide (c = client)
    then (if writeFails (conns w) client then None else clients (hub w) !! client)
    else clients (hub w) !! c.
Proof.
  unfold sendTo, WriteMessage, writeFails.
  destruct (conns w !! client) as [cs|] eqn:Hcs; simpl.
  - destruct (writeError cs) as [e|] eqn:He; simpl;
      destruct (decide (c = client)) as [->|Hne];
      rewrite ?lookup_delete_eq, ?lookup_delete_ne by done; done.
  - destruct (decide (c = client)) as [->|Hne];
      rewrite ?lookup_delete_eq, ?lookup_delete_ne by done; done.
Qed.

(** The state after the loop of a broadcast, connection by connection: the
    members were written to once, the others were left alone. *)
Lemma broadcastMessage_lookup message w c :
  let w' := broadcastMessage message w in
  conns w' !! c
  = match clients (hub w) !! c with
    | Some _ => afterSend message <$> conns w !! c
    | None => conns w !! c
    end
  /\ clients (hub w') !! c
     = match clients (hub w) !! c with
       | Some _ => if writeFails (conns w) c then None else clients (hub w) !! c
       | None => clients (hub w) !! c
       end.
Proof.
  unfold broadcastMessage.
  set (P := fun (w' : World) (m : gmap Conn bool) =>
    forall c,
      conns w' !! c
      = match m !! c with
        | Some _ => afterSend message <$> conns w !! c
        | None => conns w !! c
        end
      /\ clients (hub w') !! c
         = match m !! c with
           | Some _ => if writeFails (conns w) c then None else clients (hub w) !! c
           | None => clients (hub w) !! c
           end).
  enough (HP : P (map_fold (fun client _ w => sendTo message client w) w
                    (clients (hub w))) (clients (hub w))) by apply HP.
  apply (map_fold_weak_ind P).
  - intros c'. by rewrite lookup_empty.
  - intros i x m r Hi IH c'. rewrite sendTo_conns, sendTo_clients.
    destruct (IH i) as [IHc IHm]. rewrite Hi in IHc, IHm.
    destruct (decide (c' = i)) as [->|Hne].
    + rewrite lookup_insert_eq. unfold writeFails. rewrite IHc, IHm. done.
    + rewrite lookup_insert_ne by done. apply IH.
Qed.

(** C3.  A broadcast writes the payload exactly once to every client that is
    a member when it starts: a client whose write succeeds has the payload
    delivered once and stays a member; a client whose write fails, be it
    broken or closed before, has nothing delivered, is closed and is removed
    in that same pass.  A connection that is not a member when the pass
    starts is not written to, also when it registers afterwards. *)
Theorem broadcast_reaches_each_member_once message w c cs :
  conns w !! c = Some cs ->
  let w' := broadcastMessage message w in
  (is_Some (clients (hub w) !! c) ->
   exists cs',
     conns w' !! c = Some cs'
     /\ attempts cs' = attempts cs ++ [message]
     /\ (writeError cs = None ->
         delivered cs' = delivered cs ++ [message] /\ closed cs' = false
         /\ clients (hub w') !! c = clients (hub w) !! c)
     /\ (is_Some (writeError cs) ->
         delivered cs' = delivered cs /\ closed cs' = true
         /\ clients (hub w') !! c = None))
  /\ (clients (hub w) !! c = None ->
      conns w' !! c = Some cs /\ clients (hub w') !! c = None
      /\ conns (register c w') !! c = Some cs
      /\ clients (hub (register c w')) !! c = Some true).
Proof.
  intros Hcs w'. destruct (broadcastMessage_lookup message w c) as [Hc Hm].
  fold w' in Hc, Hm. rewrite Hcs in Hc. split.
  - intros [b Hb]. rewrite Hb in Hc, Hm. simpl in Hc.
    exists (afterSend message cs). split; [done|].
    unfold writeFails in Hm. rewrite Hcs in Hm. unfold afterSend, writeError in *.
    destruct (closed cs) eqn:Hcl; [|destruct (failure cs) as [e|] eqn:Hf]; simpl.
    + rewrite bool_decide_true in Hm by eauto.
      split; [done|]. split; [done|]. by intros _.
    + rewrite bool_decide_true in Hm by eauto.
      split; [done|]. split; [done|]. by intros _.
    + rewrite bool_decide_false in Hm by (by intros [? ?]).
      split; [done|]. split; [by rewrite Hb|]. by intros [? ?].
  - intros Hnone. rewrite Hnone in Hc, Hm. repeat split; try done.
    simpl. apply lookup_insert_eq.
Qed.

Lemma broadcast_witness :
  conns Scenarios.twoClients !! 2%positive = Some Scenarios.broken
  /\ clients (hub (broadcastMessage (bytes_of "reload") Scenarios.twoClients))
       !! 2%positive = None.
Proof.
  split; [reflexivity|].
  destruct (broadcast_reaches_each_member_once (bytes_of "reload")
              Scenarios.twoClients 2%positive Scenarios.broken eq_refl)
    as [Hmember _].
  destruct Hmember as (cs' & _ & _ & _ & Hfail); [by eexists|].
  apply Hfail. by eexists.
Defined.

End HubFacts.

(** ** The watch loop *)

Module WatchFacts.
Import Server.

Lemma spaced_snoc prev l r :
  spaced prev (l ++ [r])
  <-> spaced prev l
      /\ debounceDuration
         < time_Since (triggered r) (from_option (Some ∘ finished) prev (last l))
      /\ invoked r = triggered r + settleDelay.
Proof.
  revert prev; induction l as [|x l IH]; intros prev.
  - simpl. tauto.
  - change (spaced prev ((x :: l) ++ [r]))
      with (debounceDuration < time_Since (triggered x) prev
            /\ invoked x = triggered x + settleDelay
            /\ spaced (Some (finished x)) (l ++ [r])).
    rewrite IH. destruct l as [|y l]; [simpl; tauto|].
    rewrite (last_cons_cons x y l).
    change (spaced prev (x :: y :: l))
      with (debounceDuration < time_Since (triggered x) prev
            /\ invoked x = triggered x + settleDelay
            /\ spaced (Some (finished x)) (y :: l)).
    destruct (last (y :: l)) eqn:Hlast; simpl from_option; [tauto|].
    by destruct (last_cons_ne _ _ _ Hlast) || (exfalso; revert Hlast; clear;
       revert y; induction l; intros; simpl in *; [done | eauto]).
Qed.

Section Watch.
Variable buildFunc : Builder.BuildOptions -> Z -> Z * option string.
Variable opts : Builder.BuildOptions.
Hypothesis build_takes_time : forall o t, 0 <= (buildFunc o t).1.

Abbreviation onEvent := (Server.onEvent buildFunc opts).
Abbreviation watchForChanges := (Server.watchForChanges buildFunc opts).

Abbreviation handle := (Server.handle buildFunc opts).

Lemma handle_cons e evs st :
  handle (e :: evs) st = handle evs (onEvent e.1 e.2 st).
Proof. reflexivity. Qed.

(** An event that finds the gate closed, or does not qualify, only moves the
    clock. *)
Lemma onEvent_closed at_ms e st :
  qualifies e && gateOpen (arrive at_ms st) = false ->
  onEvent at_ms e st = arrive at_ms st.
Proof.
  unfold Server.onEvent. intros Hc. cbv zeta.
  destruct (qualifies e); [|done]. simpl in Hc. by rewrite Hc.
Qed.

(** An event that qualifies and finds the gate open makes one rebuild. *)
Lemma onEvent_open at_ms e st :
  qualifies e = true -> gateOpen (arrive at_ms st) = true ->
  let t := Z.max (now st) at_ms in
  let called := t + settleDelay in
  let took := (buildFunc opts called).1 in
  let err := (buildFunc opts called).2 in
  let st' := onEvent at_ms e st in
  lastBuildTime st' = Some (called + took)
  /\ now st' = called + took
  /\ rebuilds st' = rebuilds st ++ [mkRebuild t called (called + took) err]
  /\ broadcasts st'
     = broadcasts st ++ (if err is Some _ then [] else [bytes_of "reload"]).
Proof.
  intros Hq Hg. cbv zeta. unfold Server.onEvent. cbv zeta. rewrite Hq, Hg.
  simpl now. destruct (buildFunc opts (Z.max (now st) at_ms + settleDelay))
    as [took [err|]]; simpl; by rewrite ?app_nil_r.
Qed.

(** Events handled within the debounce interval of the last rebuild make no
    rebuild. *)
Lemma quiet_after_rebuild evs st f :
  lastBuildTime st = Some f -> now st <= f + debounceDuration ->
  Forall (fun e => e.1 <= f + debounceDuration) evs ->
  rebuilds (handle evs st) = rebuilds st
  /\ broadcasts (handle evs st) = broadcasts st.
Proof.
  revert st; induction evs as [|e evs IH]; intros st Hl Hn Hall; [done|].
  inversion_clear Hall as [|? ? He Hevs]. rewrite handle_cons.
  assert (Hclosed : gateOpen (arrive e.1 st) = false).
  { unfold gateOpen, arrive; simpl. rewrite Hl. simpl. apply Z.ltb_ge. lia. }
  rewrite onEvent_closed by (by rewrite Hclosed, andb_false_r).
  destruct (IH (arrive e.1 st)) as [-> ->]; simpl; try done. lia.
Qed.

(** Seen from the state before a closed gate, later events find the gate as
    they would have found it. *)
Lemma gate_after_closed a b st :
  gateOpen (arrive a st) = false ->
  gateOpen (arrive b (arrive a st)) = gateOpen (arrive b st).
Proof.
  unfold gateOpen, arrive; simpl. destruct (lastBuildTime st) as [f|]; simpl.
  - intros Hc%Z.ltb_ge.
    destruct (Z.ltb_spec debounceDuration (Z.max (now st) b - f));
    destruct (Z.ltb_spec debounceDuration (Z.max (Z.max (now st) a) b - f));
      (done || lia).
  - done.
Qed.

Lemma gates_after_closed a (evs : list (Z * fsnotify.Event)) st :
  gateOpen (arrive a st) = false ->
  existsb (fun e => gateOpen (arrive e.1 (arrive a st))) evs
  = existsb (fun e => gateOpen (arrive e.1 st)) evs.
Proof.
  intros Hc. induction evs as [|e evs IH]; [done|]. simpl.
  by rewrite gate_after_closed, IH.
Qed.

(** The rebuilds of a burst: one if some event of the burst finds the gate
    open, none otherwise. *)
Lemma burst_rebuilds evs st t0 :
  Forall (fun e => qualifies e.2 = true
                   /\ t0 <= e.1 <= t0 + debounceDuration) evs ->
  exists new,
    rebuilds (handle evs st) = rebuilds st ++ new
    /\ length new
       = if existsb (fun e => gateOpen (arrive e.1 st)) evs then 1%nat else 0%nat.
Proof.
  revert st; induction evs as [|e evs IH]; intros st Hall.
  - exists []. by rewrite app_nil_r.
  - inversion Hall as [|? ? [Hq [Hlo Hhi]] Hevs]; subst. rewrite handle_cons.
    simpl existsb. destruct (gateOpen (arrive e.1 st)) eqn:Hg; simpl.
    + destruct (onEvent_open e.1 e.2 st Hq Hg) as (Hl & Hn & Hr & _).
      pose proof (build_takes_time opts (Z.max (now st) e.1 + settleDelay)) as Ht.
      destruct (quiet_after_rebuild evs (onEvent e.1 e.2 st) _ Hl) as [-> _].
      * rewrite Hn. unfold debounceDuration. lia.
      * eapply Forall_impl; [exact Hevs|]. intros e' [_ [_ Hhi']]. simpl.
        unfold debounceDuration, settleDelay in *. lia.
      * rewrite Hr. by eexists.
    + rewrite onEvent_closed by (by rewrite Hg, andb_false_r).
      destruct (IH (arrive e.1 st) Hevs) as (new & Hnew & Hlen).
      exists new. split; [done|]. by rewrite Hlen, gates_after_closed.
Qed.

Lemma onEvent_settled at_ms e st : settled st -> settled (onEvent at_ms e st).
Proof.
  intros [Hsp Hlast].
  destruct (qualifies e && gateOpen (arrive at_ms st)) eqn:Hc.
  - apply andb_true_iff in Hc as [Hq Hg].
    destruct (onEvent_open at_ms e st Hq Hg) as (Hl & _ & Hr & _).
    unfold settled. rewrite Hl, Hr, last_snoc. split; [|done].
    apply spaced_snoc. split; [done|]. split; [|done]. simpl.
    unfold gateOpen, arrive in Hg. simpl in Hg. apply Z.ltb_lt in Hg.
    rewrite Hlast in Hg. by destruct (last (rebuilds st)).
  - by rewrite onEvent_closed.
Qed.

Lemma watchForChanges_settled inputs st :
  settled st -> settled (watchForChanges inputs st).1.
Proof.
  revert st; induction inputs as [|[at_ms e|err| |] inputs IH]; intros st Hst;
    simpl; try done.
  - by apply IH, onEvent_settled.
  - by apply IH.
Qed.

Lemma watchForChanges_app inputs more st :
  (watchForChanges inputs st).2 = false ->
  watchForChanges (inputs ++ more) st
  = watchForChanges more (watchForChanges inputs st).1.
Proof.
  revert st; induction inputs as [|[at_ms e|err| |] inputs IH]; intros st Hrun;
    simpl in *; try done; by apply IH.
Qed.

(** C2 (amended).  In a run of the loop that has not returned, a burst of
    qualifying events that reach the loop within 500 ms of one another
    triggers at most one rebuild: exactly one when some event of the burst is
    taken more than 500 ms after the last rebuild returned (or before any
    rebuild), none when all of them are taken within 500 ms of it.  Every
    rebuild of the run is triggered more than 500 ms after the one before it
    returned, and the build function is called 100 ms after the event was
    taken. *)
Theorem burst_makes_at_most_one_rebuild history w0 evs t0 :
  (watchForChanges history (startLoop w0)).2 = false ->
  Forall (fun e => qualifies e.2 = true
                   /\ t0 <= e.1 <= t0 + debounceDuration) evs ->
  let st := (watchForChanges history (startLoop w0)).1 in
  let st' := (watchForChanges (history ++ burstOf evs) (startLoop w0)).1 in
  exists new,
    rebuilds st' = rebuilds st ++ new
    /\ length new
       = (if existsb (fun e => gateOpen (arrive e.1 st)) evs then 1%nat else 0%nat)
    /\ (length new <= 1)%nat
    /\ spaced None (rebuilds st')
    /\ (forall at_ms e, qualifies e = false ->
        rebuilds (onEvent at_ms e st') = rebuilds st').
Proof.
  intros Hrun Hall st st'.
  assert (Hst' : st' = handle evs st)
    by (unfold st'; by rewrite watchForChanges_app).
  rewrite Hst'. clear Hst' st'.
  destruct (burst_rebuilds evs st t0 Hall) as (new & Hnew & Hlen).
  exists new. split; [done|]. split; [done|]. split; [|split].
  - rewrite Hlen. by destruct (existsb _ evs); lia.
  - apply watchForChanges_settled, watchForChanges_settled. by split.
  - intros at_ms e Hq. rewrite onEvent_closed; [done | by rewrite Hq].
Qed.

(** A change of mode alone does not qualify, a write does. *)
Example metadata_event_does_not_qualify :
  qualifies Scenarios.touched = false /\ qualifies Scenarios.saved = true.
Proof. split; reflexivity. Qed.

(** C6.  When the build that an event triggers returns an error, the error
    is logged, the hub and its connections are left as they were, no
    broadcast is made, and the loop goes on with what it receives next; when
    the build succeeds, the loop makes exactly one broadcast, of the payload
    [reload]. *)
Theorem rebuild_result_decides_broadcast at_ms e st rest :
  qualifies e = true -> gateOpen (arrive at_ms st) = true ->
  let called := Z.max (now st) at_ms + settleDelay in
  let st' := onEvent at_ms e st in
  watchForChanges (FromEvents at_ms e :: rest) st = watchForChanges rest st'
  /\ (watchForChanges [FromEvents at_ms e] st).2 = false
  /\ (exists r, rebuilds st' = rebuilds st ++ [r]
                /\ invoked r = called /\ failed r = (buildFunc opts called).2)
  /\ match (buildFunc opts called).2 with
     | Some err =>
         last (logged (world st')) = Some ("Error rebuilding site: " +:+ err)
         /\ hub (world st') = hub (world st)
         /\ conns (world st') = conns (world st)
         /\ broadcasts st' = broadcasts st
     | None =>
         broadcasts st' = broadcasts st ++ [bytes_of "reload"]
         /\ world st'
            = broadcastMessage (bytes_of "reload")
                (logLine "Site rebuilt successfully. Triggering reload..."
                   (logLine ("Change detected in " +:+ fsnotify.Name e
                             +:+ ", rebuilding...") (world st)))
     end.
Proof.
  intros Hq Hg called st'. split; [done|]. split; [done|].
  destruct (onEvent_open at_ms e st Hq Hg) as (_ & _ & Hr & Hb).
  fold called st' in Hr, Hb. split; [by eexists|].
  unfold st', Server.onEvent. cbv zeta. rewrite Hq, Hg. simpl now.
  fold called. clear Hr Hb.
  destruct (buildFunc opts called) as [took [err|]]; simpl.
  - by rewrite last_snoc.
  - done.
Qed.

End Watch.

(** C2, as stated, fails: a single qualifying event that reaches the loop
    200 ms after a rebuild returned, and a full second after the event before
    it, triggers no rebuild. *)
Lemma burst_after_rebuild_is_dropped :
  let history := [FromEvents 0 Scenarios.saved] in
  let burst := [(1000, Scenarios.saved)] in
  let run := watchForChanges Scenarios.slowBuild Scenarios.watchOpts in
  let st := (run history (startLoop Scenarios.twoClients)).1 in
  let st' := (run (history ++ burstOf burst) (startLoop Scenarios.twoClients)).1 in
  qualifies Scenarios.saved = true
  /\ (run history (startLoop Scenarios.twoClients)).2 = false
  /\ rebuilds st = [mkRebuild 0 100 800 None]
  /\ rebuilds st' = rebuilds st.
Proof. vm_compute. repeat split; reflexivity. Qed.

Lemma burst_witness :
  let evs := [(1000, Scenarios.saved); (1050, Scenarios.saved)] in
  let run := watchForChanges Scenarios.quickBuild Scenarios.watchOpts in
  (forall o t, 0 <= (Scenarios.quickBuild o t).1)
  /\ (run [] (startLoop Scenarios.twoClients)).2 = false
  /\ Forall (fun e => qualifies e.2 = true
                      /\ 1000 <= e.1 <= 1000 + debounceDuration) evs
  /\ length (rebuilds (run ([] ++ burstOf evs) (startLoop Scenarios.twoClients)).1)
     = 1%nat.
Proof.
  assert (Htime : forall o t, 0 <= (Scenarios.quickBuild o t).1)
    by (intros; simpl; lia).
  assert (Hall : Forall (fun e => qualifies e.2 = true
                                  /\ 1000 <= e.1 <= 1000 + debounceDuration)
                        [(1000, Scenarios.saved); (1050, Scenarios.saved)]).
  { repeat constructor; simpl; unfold debounceDuration; lia. }
  split; [exact Htime|]. split; [reflexivity|]. split; [exact Hall|].
  destruct (burst_makes_at_most_one_rebuild Scenarios.quickBuild
              Scenarios.watchOpts Htime [] Scenarios.twoClients _ 1000
              eq_refl Hall)
    as (new & Hnew & Hlen & _).
  cbv zeta. rewrite Hnew. simpl. exact Hlen.
Defined.

Lemma rebuild_result_witness :
  let st := startLoop Scenarios.twoClients in
  qualifies Scenarios.saved = true /\ gateOpen (arrive 0 st) = true
  /\ broadcasts (onEvent Scenarios.failingBuild Scenarios.watchOpts 0
                   Scenarios.saved st) = []
  /\ broadcasts (onEvent Scenarios.quickBuild Scenarios.watchOpts 0
                   Scenarios.saved st) = [bytes_of "reload"].
Proof.
  split; [reflexivity|]. split; [reflexivity|].
  destruct (rebuild_result_decides_broadcast Scenarios.failingBuild
              Scenarios.watchOpts 0 Scenarios.saved
              (startLoop Scenarios.twoClients) [] eq_refl eq_refl)
    as (_ & _ & _ & _ & _ & _ & Hfail).
  destruct (rebuild_result_decides_broadcast Scenarios.quickBuild
              Scenarios.watchOpts 0 Scenarios.saved
              (startLoop Scenarios.twoClients) [] eq_refl eq_refl)
    as (_ & _ & _ & Hok & _).
  split; [exact Hfail | exact Hok].
Defined.

End WatchFacts.

(** ** The build pipeline *)

Module BuilderFacts.
Import GoBytes GoStrings Builder GoBytesFacts GoStringsFacts.

(** The delimiter and what surrounds its first two instances. *)
Lemma frontMatterAndBody_cases rawContent :
  frontMatterAndBody rawContent
  = match Index rawContent delimiter with
    | None => (None, string_of rawContent)
    | Some i =>
        let rest := drop (i + 3) rawContent in
        match Index rest delimiter with
        | None => (None, string_of rawContent)
        | Some j => (Some (take j rest), string_of (drop (j + 3) rest))
        end
    end.
Proof.
  unfold frontMatterAndBody, SplitN.
  destruct (Index rawContent delimiter) as [i|] eqn:Hi.
  - destruct (Index_split _ _ _ Hi) as [Hsplit _].
    assert (Hlen : (3 <= length rawContent)%nat).
    { rewrite Hsplit, !length_app. simpl. lia. }
    replace (Nat.min 3 (length rawContent + 1) - 1)%nat with 2%nat by lia.
    simpl. rewrite Hi. change (length delimiter) with 3%nat.
    by destruct (Index (drop (i + 3) rawContent) delimiter).
  - destruct (Nat.min 3 (length rawContent + 1) - 1)%nat; simpl; by rewrite ?Hi.
Qed.

(** An extension holds no separator. *)
Lemma ext_scan_no_separator s found :
  match found with
  | None => True
  | Some t => exists u, t = u +:+ s /\ CountChar u PathSeparator = 0%nat
  end ->
  CountChar (ext_scan s found) PathSeparator = 0%nat.
Proof.
  revert found; induction s as [|c s IH]; intros found Hf; simpl.
  - destruct found as [t|]; [|done]. destruct Hf as (u & -> & Hu).
    change (CountChar (u +:+ EmptyString) PathSeparator = 0%nat).
    rewrite CountChar_app, Hu. done.
  - destruct (Ascii.eqb_spec c PathSeparator) as [->|Hc]; [by apply IH|].
    destruct (Ascii.eqb c "."%char) eqn:Hdot; apply IH.
    + exists (String c EmptyString). split; [done|]. simpl.
      by destruct (Ascii.eqb_spec c PathSeparator).
    + destruct found as [t|]; [|done]. destruct Hf as (u & -> & Hu).
      exists (u +:+ String c EmptyString). split.
      * clear. induction u as [|d u IHu]; [done|].
        rewrite !append_cons. by rewrite IHu.
      * rewrite CountChar_app, Hu. simpl.
        by destruct (Ascii.eqb_spec c PathSeparator).
Qed.

Lemma Ext_no_separator path : CountChar (Ext path) PathSeparator = 0%nat.
Proof. by apply ext_scan_no_separator. Qed.

(** Trimming an extension leaves the separators of the path in place. *)
Lemma TrimSuffix_separators s suffix :
  CountChar suffix PathSeparator = 0%nat ->
  CountChar (TrimSuffix s suffix) PathSeparator = CountChar s PathSeparator.
Proof.
  intros Hs. unfold TrimSuffix. destruct (HasSuffix s suffix) eqn:Hsuf; [|done].
  pose proof (HasSuffix_slice _ _ Hsuf) as E.
  transitivity
    (CountChar (slice_to (String.length s - String.length suffix) s +:+ suffix)
               PathSeparator); [rewrite CountChar_app, Hs; lia | by rewrite <- E].
Qed.

Lemma isExceptionPage_spec slug :
  isExceptionPage slug = true
  <-> slug = "index"%string \/ slug = "about"%string \/ slug = "menu"%string.
Proof.
  unfold isExceptionPage. rewrite !orb_true_iff, !String.eqb_eq. tauto.
Qed.

(** A slug with a separator is not on the list. *)
Lemma isExceptionPage_nested slug :
  (0 < CountChar slug PathSeparator)%nat -> isExceptionPage slug = false.
Proof.
  intros Hc. destruct (isExceptionPage slug) eqn:He; [|done].
  apply isExceptionPage_spec in He as [-> | [-> | ->]]; simpl in Hc; lia.
Qed.

(** A call that changes nothing and returns [nil] can be left out of a walk. *)
Lemma walk_without f pre v post st :
  (forall st, f st v = (st, None)) ->
  walk f (pre ++ v :: post) st = walk f (pre ++ post) st.
Proof.
  intros Hv. revert st; induction pre as [|x pre IH]; intros st; simpl.
  - by rewrite Hv.
  - destruct (f st x) as [st' [err|]]; [done | apply IH].
Qed.

Section Pipeline.
Variable yaml_Unmarshal : list byte -> PageMeta -> string + PageMeta.
Variable markdown_Convert : list byte -> string + list byte.
Variable SanitizeBytes : list byte -> list byte.
Variable utf8_Valid : list byte -> bool.
Variable outputDir contentDir staticDir : string.
Variable site : Config.SiteConfig.
Variable tmpl : Template.
Variable opts : BuildOptions.

Abbreviation processContent :=
  (Builder.processContent yaml_Unmarshal markdown_Convert SanitizeBytes).
Abbreviation renderBody := (Builder.renderBody markdown_Convert SanitizeBytes).
Abbreviation load :=
  (Builder.load yaml_Unmarshal markdown_Convert SanitizeBytes utf8_Valid
                contentDir opts).
Abbreviation visit :=
  (Builder.visit yaml_Unmarshal markdown_Convert SanitizeBytes utf8_Valid
                 outputDir contentDir site tmpl opts).
Abbreviation BuildSite :=
  (Builder.BuildSite yaml_Unmarshal markdown_Convert SanitizeBytes utf8_Valid
                     outputDir contentDir staticDir site tmpl opts).

Lemma renderBody_meta meta body o : (renderBody meta body o).1.1 = meta.
Proof.
  unfold Builder.renderBody. destruct (markdown_Convert _); [done|].
  by destruct (negb (Unsafe o)).
Qed.

(** The extension and the relative path of a loaded document. *)
Lemma load_Document v meta htmlOut relPath ext :
  load v = Document meta htmlOut relPath ext ->
  ext = Ext (Base (v_path v)) /\ Rel contentDir (v_path v) = Some relPath.
Proof.
  unfold Builder.load. destruct (v_err v); [done|]. destruct (v_isDir v); [done|].
  destruct (negb (String.eqb _ ".html") && negb (String.eqb _ ".md")); [done|].
  destruct (v_file v) as [|bytes]; [done|].
  destruct (negb (utf8_Valid bytes)); [done|].
  destruct (Builder.processContent _ _ _ bytes opts) as [[m h] [e|]]; [done|].
  destruct (Rel contentDir (v_path v)); [|done]. by intros [= <- <- <- <-].
Qed.

(** A draft whose slug is not on the list: nothing is written or counted. *)
Lemma visit_draft v meta htmlOut relPath ext st :
  load v = Document meta htmlOut relPath ext ->
  Draft meta = true -> isExceptionPage (slugOf relPath ext) = false ->
  visit st v = (st, None).
Proof. intros Hl Hd He. unfold Builder.visit. by rewrite Hl, Hd, He. Qed.

Lemma BuildSite_without pre v post static existing :
  (forall st, visit st v = (st, None)) ->
  BuildSite (pre ++ v :: post) static existing
  = BuildSite (pre ++ post) static existing.
Proof. intros Hv. unfold Builder.BuildSite. by rewrite walk_without. Qed.

(** A document that passes the draft check is rendered to its output path. *)
Lemma visit_emitted v meta htmlOut relPath ext st :
  load v = Document meta htmlOut relPath ext ->
  Draft meta && negb (isExceptionPage (slugOf relPath ext)) = false ->
  let out := Join outputDir (slugOf relPath ext +:+ ".html") in
  let rendered := tmpl (pageDataOf site meta htmlOut relPath) in
  files (visit st v).1 !! out = Some rendered.1
  /\ (rendered.2 = None ->
      (visit st v).2 = None
      /\ pagesGenerated (visit st v).1 = S (pagesGenerated st)).
Proof.
  intros Hl Hc. cbv zeta. unfold Builder.visit, renderPage. rewrite Hl, Hc.
  destruct (tmpl (pageDataOf site meta htmlOut relPath)) as [written [err|]];
    simpl; by rewrite lookup_insert_eq.
Qed.

(** C4.  A document whose front matter sets the draft flag and whose slug is
    not on the list is skipped: its call writes no file and counts no page,
    and the whole build gives the same count, error and output tree as the
    build without the document.  A document whose slug is [index] or [about]
    is rendered to its output path whatever its draft flag says, and counted
    when the template succeeds. *)
Theorem draft_is_skipped_unless_listed v meta htmlOut relPath ext :
  load v = Document meta htmlOut relPath ext ->
  (Draft meta = true -> isExceptionPage (slugOf relPath ext) = false ->
   (forall st, visit st v = (st, None))
   /\ (forall pre post static existing,
         BuildSite (pre ++ v :: post) static existing
         = BuildSite (pre ++ post) static existing))
  /\ (slugOf relPath ext = "index"%string \/ slugOf relPath ext = "about"%string ->
      forall st,
        let rendered := tmpl (pageDataOf site meta htmlOut relPath) in
        files (visit st v).1 !! Join outputDir (slugOf relPath ext +:+ ".html")
        = Some rendered.1
        /\ (rendered.2 = None ->
            (visit st v).2 = None
            /\ pagesGenerated (visit st v).1 = S (pagesGenerated st))).
Proof.
  intros Hl. split.
  - intros Hd He.
    assert (Hv : forall st, visit st v = (st, None))
      by (intros st; by apply (visit_draft v meta htmlOut relPath ext)).
    split; [done|]. intros pre post static existing. by apply BuildSite_without.
  - intros Hslug st. apply (visit_emitted v meta htmlOut relPath ext st Hl).
    assert (He : isExceptionPage (slugOf relPath ext) = true)
      by (apply isExceptionPage_spec; tauto).
    rewrite He. apply andb_false_r.
Qed.

(** C5 (amended).  Front matter is recognised wherever the content holds two
    instances of three dashes, one after the other: what stands before the
    first is dropped, what stands between the first two goes to the YAML
    reader and becomes the metadata, what follows the second is the body.
    Content that is not of that shape is the body as a whole, and its
    metadata is the zero value: empty title, not a draft. *)
Theorem front_matter_is_between_first_two_delimiters rawContent o :
  (forall a b c,
      rawContent = a ++ delimiter ++ b ++ delimiter ++ c ->
      (forall j, (j < length a)%nat -> ~ occurs_at rawContent delimiter j) ->
      (forall j, (j < length b)%nat ->
                 ~ occurs_at (b ++ delimiter ++ c) delimiter j) ->
      frontMatterAndBody rawContent = (Some b, string_of c)
      /\ processContent rawContent o
         = match yaml_Unmarshal b emptyMeta with
           | inl err =>
               (emptyMeta, EmptyString,
                Some ("failed to parse front matter: " +:+ err))
           | inr meta => renderBody meta (string_of c) o
           end)
  /\ ((~ exists a b c, rawContent = a ++ delimiter ++ b ++ delimiter ++ c) ->
      frontMatterAndBody rawContent = (None, string_of rawContent)
      /\ processContent rawContent o
         = renderBody emptyMeta (string_of rawContent) o
      /\ Title (processContent rawContent o).1.1 = EmptyString
      /\ Draft (processContent rawContent o).1.1 = false).
Proof.
  split.
  - intros a b c Heq Ha Hb.
    assert (Hfm : frontMatterAndBody rawContent = (Some b, string_of c)).
    { rewrite frontMatterAndBody_cases.
      rewrite (Index_first rawContent delimiter (length a));
        [|by exists a, (b ++ delimiter ++ c)|done].
      cbv zeta.
      assert (Hrest : drop (length a + 3) rawContent = b ++ delimiter ++ c).
      { rewrite Heq. change 3%nat with (length delimiter).
        by rewrite drop_app_add', drop_app_length. }
      rewrite Hrest.
      rewrite (Index_first _ delimiter (length b)); [|by exists b, c|done].
      change 3%nat with (length delimiter).
      by rewrite take_app_length, drop_app_add', drop_app_length. }
    split; [done|]. unfold Builder.processContent. by rewrite Hfm.
  - intros Hshape.
    assert (Hfm : frontMatterAndBody rawContent = (None, string_of rawContent)).
    { rewrite frontMatterAndBody_cases.
      destruct (Index rawContent delimiter) as [i|] eqn:Hi; [|done]. cbv zeta.
      destruct (Index (drop (i + 3) rawContent) delimiter) as [j|] eqn:Hj; [|done].
      destruct Hshape. destruct (Index_split _ _ _ Hi) as [Hs1 _].
      destruct (Index_split _ _ _ Hj) as [Hs2 _].
      eexists _, _, _. rewrite Hs1 at 1. do 2 f_equal.
      change (length delimiter) with 3%nat. exact Hs2. }
    split; [done|]. unfold Builder.processContent. rewrite Hfm.
    split; [done|]. by rewrite renderBody_meta.
Qed.

(** C10.  The list is compared with the whole path of the document below
    the content root, less its extension: only a slug that is [index],
    [about] or [menu] passes, and a draft anywhere in a subdirectory,
    whatever its name, is skipped and leaves no trace in the build. *)
Theorem exception_list_is_for_top_level_documents v meta htmlOut relPath ext :
  load v = Document meta htmlOut relPath ext ->
  Rel contentDir (v_path v) = Some relPath
  /\ (isExceptionPage (slugOf relPath ext) = true
      <-> TrimSuffix relPath ext = "index"%string
          \/ TrimSuffix relPath ext = "about"%string
          \/ TrimSuffix relPath ext = "menu"%string)
  /\ ((0 < CountChar relPath PathSeparator)%nat -> Draft meta = true ->
      isExceptionPage (slugOf relPath ext) = false
      /\ (forall st, visit st v = (st, None))
      /\ (forall pre post static existing,
            BuildSite (pre ++ v :: post) static existing
            = BuildSite (pre ++ post) static existing)).
Proof.
  intros Hl. destruct (load_Document _ _ _ _ _ Hl) as [Hext Hrel].
  split; [done|]. split; [apply isExceptionPage_spec|].
  intros Hnested Hd.
  assert (He : isExceptionPage (slugOf relPath ext) = false).
  { apply isExceptionPage_nested. unfold slugOf.
    rewrite TrimSuffix_separators; [done|]. rewrite Hext. apply Ext_no_separator. }
  assert (Hv : forall st, visit st v = (st, None))
    by (intros st; by apply (visit_draft v meta htmlOut relPath ext)).
  split; [done|]. split; [done|].
  intros pre post static existing. by apply BuildSite_without.
Qed.

End Pipeline.

(** C5, as stated, fails: notes that open with a heading and hold two
    thematic breaks have no leading front-matter block, yet the text between
    the breaks is taken as front matter and only what follows the second
    break is the body. *)
Lemma thematic_breaks_taken_as_front_matter :
  opensWithDelimiterLine Scenarios.notes = false
  /\ frontMatterAndBody Scenarios.notes
     = (Some (bytes_of (Scenarios.nl +:+ "first" +:+ Scenarios.nl)),
        Scenarios.nl +:+ "second")
  /\ (frontMatterAndBody Scenarios.notes).2 <> string_of Scenarios.notes.
Proof. vm_compute. repeat split; (reflexivity || discriminate). Qed.

Lemma front_matter_witness :
  frontMatterAndBody Scenarios.draftPost
  = (Some (bytes_of (Scenarios.nl +:+ "draft: true" +:+ Scenarios.nl)),
     Scenarios.nl +:+ "Body").
Proof.
  destruct (front_matter_is_between_first_two_delimiters Scenarios.toyYaml
              Scenarios.toyMarkdown Scenarios.toySanitize Scenarios.draftPost
              Scenarios.genOpts) as [Hfound _].
  destruct (Hfound [] (bytes_of (Scenarios.nl +:+ "draft: true" +:+ Scenarios.nl))
                   (bytes_of (Scenarios.nl +:+ "Body")) eq_refl) as [Hfm _].
  - simpl. lia.
  - intros j Hj Hocc.
    assert (Hi : Index (bytes_of (Scenarios.nl +:+ "draft: true" +:+ Scenarios.nl)
                        ++ delimiter ++ bytes_of (Scenarios.nl +:+ "Body"))
                       delimiter = Some 13%nat) by (vm_compute; reflexivity).
    destruct (Index_Some _ _ _ Hi) as [_ Hfirst]. by apply (Hfirst j).
  - exact Hfm.
Defined.

Lemma draft_witness :
  let v := Scenarios.fileAt "content/post.md" Scenarios.draftPost in
  Scenarios.toyLoad v
  = Document (mkPageMeta EmptyString EmptyString true EmptyString false
                         EmptyString EmptyString ∅)
             (Scenarios.nl +:+ "Body") "post.md" ".md"
  /\ Scenarios.toyBuild [Scenarios.contentRoot; v]
     = Scenarios.toyBuild [Scenarios.contentRoot].
Proof.
  split; [vm_compute; reflexivity|].
  destruct (draft_is_skipped_unless_listed Scenarios.toyYaml Scenarios.toyMarkdown
              Scenarios.toySanitize Scenarios.anyValid "public" "content" "static"
              Scenarios.toySite Scenarios.toyTemplate Scenarios.genOpts
              (Scenarios.fileAt "content/post.md" Scenarios.draftPost)
              _ _ _ _ eq_refl) as [Hskip _].
  destruct (Hskip eq_refl eq_refl) as [_ Hbuild].
  exact (Hbuild [Scenarios.contentRoot] [] [] ∅).
Defined.

Lemma nested_index_witness :
  let v := Scenarios.fileAt "content/blog/index.md" Scenarios.draftPost in
  Scenarios.toyLoad v
  = Document (mkPageMeta EmptyString EmptyString true EmptyString false
                         EmptyString EmptyString ∅)
             (Scenarios.nl +:+ "Body") "blog/index.md" ".md"
  /\ Scenarios.toyBuild [Scenarios.contentRoot; v]
     = Scenarios.toyBuild [Scenarios.contentRoot].
Proof.
  split; [vm_compute; reflexivity|].
  destruct (exception_list_is_for_top_level_documents Scenarios.toyYaml
              Scenarios.toyMarkdown Scenarios.toySanitize Scenarios.anyValid
              "public" "content" "static" Scenarios.toySite Scenarios.toyTemplate
              Scenarios.genOpts
              (Scenarios.fileAt "content/blog/index.md" Scenarios.draftPost)
              _ _ _ _ eq_refl) as (_ & _ & Hnested).
  destruct Hnested as (_ & _ & Hbuild); [simpl; lia | reflexivity |].
  exact (Hbuild [Scenarios.contentRoot] [] [] ∅).
Defined.

End BuilderFacts.
